(** * I2C master transaction engine (Si7021 read): a shallow embedding

    The development follows [Source_Files/i2c.c]: the bus reset procedure
    [i2c_bus_reset], the transaction initiator [i2c_init_sm], the header
    transmission [i2c_tx_start] and the four interrupt state machines
    [i2cn_ack_sm], [i2cn_nack_sm], [i2cn_rxdata_sm], [i2cn_mstop_sm].

    The code is stateful C over memory-mapped registers.  It is embedded as
    programs of a state-and-fault monad over a [system] record that holds
    the two peripherals' registers, the two static descriptors [i2c0_sm] and
    [i2c1_sm], the caller-owned memory the descriptors point into, the
    interrupt mask, and a chronological [trace] of every externally visible
    effect (register writes, calls into the sleep governor, the scheduler,
    the timer and the interrupt controller). *)

From Stdlib Require Import ZArith List Bool Lia Sorted.
Import ListNotations.
Open Scope Z_scope.

Module I2C.

(* ------------------------------------------------------------------ *)
(** ** Constants of the missing headers                                *)
(* ------------------------------------------------------------------ *)

(** Modelled from the spec: the device header with the I2C command bits is
    not part of the sources.  The commands are the distinct single bits of
    the CMD register (START, STOP, ACK, NACK, CONT, ABORT, CLEARTX); the
    bus reset writes START and STOP combined in one write. *)
Definition I2C_CMD_START : Z := 0x01.
Definition I2C_CMD_STOP : Z := 0x02.
Definition I2C_CMD_ACK : Z := 0x04.
Definition I2C_CMD_NACK : Z := 0x08.
Definition I2C_CMD_CONT : Z := 0x10.
Definition I2C_CMD_ABORT : Z := 0x20.
Definition I2C_CMD_CLEARTX : Z := 0x40.

(** Modelled from the spec: the device header is missing.  Writing
    [_I2C_IEN_RESETVALUE] to IEN "disables all interrupts" of the
    peripheral (spec 4.1 step 3, and the comment at the write in
    [i2c_bus_reset]), so it is the word with no enable bit set. *)
Definition _I2C_IEN_RESETVALUE : Z := 0x00000000.

(** Modelled from the spec: the device header is missing.  Writing
    [_I2C_IFC_MASK] to IFC "clears all pending interrupt flags" that can be
    cleared by software (bits 0-18 except the two level flags TXBL and
    RXDATAV, bits 4 and 5). *)
Definition _I2C_IFC_MASK : Z := 0x0007FFCF.

(** Modelled from the spec: the device header is missing.  The
    stop-detected flag is one bit of IF, cleared through the same bit of
    IFC. *)
Definition I2C_IF_MSTOP : Z := 0x100.
Definition I2C_IFC_MSTOP : Z := 0x100.

(** Modelled from the spec: the device header is missing.  The STATE field
    of the hardware state register, and its idle value. *)
Definition _I2C_STATE_STATE_MASK : Z := 0xE0.
Definition I2C_STATE_STATE_IDLE : Z := 0x00.

(** Modelled from the spec: [i2c.h] is missing.  The interrupt sources
    enabled for a transaction are the ones the interrupt vector dispatches
    on (ACK, NACK, RXDATAV, MSTOP). *)
Definition I2C_IEN_MASK : Z := 0x1E0.

(** Modelled from the spec: [i2c.h] is missing.  [busy] is a boolean. *)
Definition I2C_BUS_BUSY : bool := true.
Definition I2C_BUS_READY : bool := false.

(** Modelled from the spec: [i2c.h] and the sensor header are missing.  The
    header byte is the 7-bit address shifted left by one, or'ed with the
    read/write bit; a received byte is placed at a multiple of 8 bits. *)
Definition I2C_ADDR_RW_SHIFT : Z := 1.
Definition MSBYTE_SHIFT : Z := 8.
Definition SI7021_I2C_WRITE : Z := 0.
Definition SI7021_I2C_READ : Z := 1.

(** Modelled from the spec: the sensor header is missing.  The "measure"
    command byte (relative humidity, no hold master mode). *)
Definition measure_RH_NHMM : Z := 0xF5.

(* ------------------------------------------------------------------ *)
(** ** Machine words                                                   *)
(* ------------------------------------------------------------------ *)

Definition wrap32 (x : Z) : Z := x mod 2 ^ 32.

(** [x << n] on 32-bit unsigned operands.  C leaves a shift by 32 or more
    undefined; the model makes it total with [0], all bits shifted out.
    What is stated below about the content of memory does not rest on
    that choice: the theorems bound the shift count below 32, and the
    examples with a larger count state only what holds for every 32-bit
    result of the shift. *)
Definition shl32 (x n : Z) : Z :=
  if n <? 32 then wrap32 (Z.shiftl x n) else 0.

(* ------------------------------------------------------------------ *)
(** ** Data model                                                      *)
(* ------------------------------------------------------------------ *)

(** [I2C_TypeDef *]: the two peripheral instances. *)
Inductive I2C_TypeDef : Type := I2C0 | I2C1.

Definition I2C_eqb (a b : I2C_TypeDef) : bool :=
  match a, b with
  | I2C0, I2C0 | I2C1, I2C1 => true
  | _, _ => false
  end.

(** The states of the transaction state machine.  The enumeration is
    declared in the missing [i2c.h]; its constants are the five that
    [i2c.c] uses. *)
Inductive DEFINED_STATES : Type :=
  | req_res | command_tx | data_req | data_rx | m_stop.

(** Modelled from the spec: [i2c.h] is missing; the fields are the ones
    that [i2c.c] dereferences.  [txdata] and [rxdata] are pointers to a
    peripheral's TXDATA and RXDATA registers and are represented by the
    peripheral they point into; [data] is the address of the caller-owned
    destination word; [num_bytes] and [i2c_cb] are unsigned 32-bit. *)
Record I2C_SM_STRUCT : Type := mkSM {
  I2Cn : I2C_TypeDef;
  curr_state : DEFINED_STATES;
  busy : bool;
  slave_addr : Z;
  txdata : I2C_TypeDef;
  rxdata : I2C_TypeDef;
  data : Z;
  num_bytes : Z;
  i2c_cb : Z
}.

Definition set_busy (b : bool) (d : I2C_SM_STRUCT) : I2C_SM_STRUCT :=
  mkSM (I2Cn d) (curr_state d) b (slave_addr d) (txdata d) (rxdata d)
       (data d) (num_bytes d) (i2c_cb d).

Definition set_curr_state (c : DEFINED_STATES) (d : I2C_SM_STRUCT)
  : I2C_SM_STRUCT :=
  mkSM (I2Cn d) c (busy d) (slave_addr d) (txdata d) (rxdata d)
       (data d) (num_bytes d) (i2c_cb d).

Definition set_num_bytes (n : Z) (d : I2C_SM_STRUCT) : I2C_SM_STRUCT :=
  mkSM (I2Cn d) (curr_state d) (busy d) (slave_addr d) (txdata d) (rxdata d)
       (data d) n (i2c_cb d).

(** The registers of one peripheral that the code reads back.  [IEN] is
    plain storage.  [STATE] and [RXDATA] are driven by the hardware.  The
    interrupt-flag register IF is driven by the hardware as well: [IF_reads]
    is the sequence of values that the next reads of IF return, so that a
    theorem quantified over it covers every behaviour of the peripheral. *)
Record I2C_regs : Type := mkRegs {
  IEN : Z;
  STATE : Z;
  RXDATA : Z;
  IF_reads : list Z
}.

(** Externally visible effects, in program order. *)
Inductive effect : Type :=
  | WrCMD (p : I2C_TypeDef) (v : Z)     (* i2c->CMD = v *)
  | WrTXDATA (p : I2C_TypeDef) (v : Z)  (* *txdata = v *)
  | WrIFC (p : I2C_TypeDef) (v : Z)     (* i2c->IFC = v *)
  | OrIFC (p : I2C_TypeDef) (v : Z)     (* i2c->IFC |= v *)
  | WrIEN (p : I2C_TypeDef) (v : Z)     (* i2c->IEN = v *)
  | SleepBlock                          (* sleep_block_mode(I2C_EM_BLOCK) *)
  | SleepUnblock                        (* sleep_unblock_mode(I2C_EM_BLOCK) *)
  | Scheduled (cb : Z)                  (* add_scheduled_event(cb) *)
  | NvicEnable (p : I2C_TypeDef)        (* NVIC_EnableIRQ(I2Cn_IRQn) *)
  | TimerDelay                          (* timer_delay(I2C_80MS_DELAY) *)
  | EnterCritical                       (* CORE_ENTER_CRITICAL() *)
  | ExitCritical                        (* CORE_EXIT_CRITICAL() *)
  | PollBusy (p : I2C_TypeDef) (b : bool) (* one test of while(i2cN_sm.busy) *)
  | WrSlot (p : I2C_TypeDef).           (* i2cN_sm = *i2c_sm *)

Record system : Type := mkSys {
  regs0 : I2C_regs;
  regs1 : I2C_regs;
  i2c0_sm : I2C_SM_STRUCT;
  i2c1_sm : I2C_SM_STRUCT;
  mem : Z -> Z;
  primask : bool;
  trace : list effect
}.

Definition regs (p : I2C_TypeDef) (s : system) : I2C_regs :=
  match p with I2C0 => regs0 s | I2C1 => regs1 s end.

Definition slot (p : I2C_TypeDef) (s : system) : I2C_SM_STRUCT :=
  match p with I2C0 => i2c0_sm s | I2C1 => i2c1_sm s end.

Definition with_regs (p : I2C_TypeDef) (r : I2C_regs) (s : system) : system :=
  match p with
  | I2C0 => mkSys r (regs1 s) (i2c0_sm s) (i2c1_sm s) (mem s) (primask s) (trace s)
  | I2C1 => mkSys (regs0 s) r (i2c0_sm s) (i2c1_sm s) (mem s) (primask s) (trace s)
  end.

Definition with_slot (p : I2C_TypeDef) (d : I2C_SM_STRUCT) (s : system) : system :=
  match p with
  | I2C0 => mkSys (regs0 s) (regs1 s) d (i2c1_sm s) (mem s) (primask s) (trace s)
  | I2C1 => mkSys (regs0 s) (regs1 s) (i2c0_sm s) d (mem s) (primask s) (trace s)
  end.

Definition with_mem (m : Z -> Z) (s : system) : system :=
  mkSys (regs0 s) (regs1 s) (i2c0_sm s) (i2c1_sm s) m (primask s) (trace s).

Definition with_primask (b : bool) (s : system) : system :=
  mkSys (regs0 s) (regs1 s) (i2c0_sm s) (i2c1_sm s) (mem s) b (trace s).

Definition with_trace (t : list effect) (s : system) : system :=
  mkSys (regs0 s) (regs1 s) (i2c0_sm s) (i2c1_sm s) (mem s) (primask s) t.

(* ------------------------------------------------------------------ *)
(** ** The monad: state that survives a fault                          *)
(* ------------------------------------------------------------------ *)

(** A program either returns, or stops at a failed [EFM_ASSERT] (fatal, per
    the spec), or stalls in a busy-wait whose condition never came true
    within the modelled horizon.  The system state at that point is kept in
    all three cases. *)
Inductive res (A : Type) : Type :=
  | Ok (a : A)
  | AssertFailed
  | Stalled.
Arguments Ok {A} a.
Arguments AssertFailed {A}.
Arguments Stalled {A}.

Definition M (A : Type) : Type := system -> res A * system.

Definition ret {A : Type} (a : A) : M A := fun s => (Ok a, s).

Definition bind {A B : Type} (m : M A) (k : A -> M B) : M B :=
  fun s =>
    match m s with
    | (Ok a, s') => k a s'
    | (AssertFailed, s') => (AssertFailed, s')
    | (Stalled, s') => (Stalled, s')
    end.

Declare Scope i2c_scope.
Delimit Scope i2c_scope with i2c.
Notation "x <- m ;; k" := (bind m (fun x => k))
  (at level 61, m at next level, right associativity) : i2c_scope.
Notation "m ;; k" := (bind m (fun _ => k))
  (at level 61, right associativity) : i2c_scope.
Open Scope i2c_scope.

Definition emit (e : effect) : M unit :=
  fun s => (Ok tt, with_trace (trace s ++ [e]) s).

(** [EFM_ASSERT(c)]. Modelled from the spec: [em_assert.h] is missing; a
    violated assertion is fatal. *)
Definition EFM_ASSERT (c : bool) : M unit :=
  fun s => if c then (Ok tt, s) else (AssertFailed, s).

Definition stall {A : Type} : M A := fun s => (Stalled, s).

(** Register accesses. *)
Definition wr_CMD (p : I2C_TypeDef) (v : Z) : M unit := emit (WrCMD p v).
Definition wr_TXDATA (p : I2C_TypeDef) (v : Z) : M unit := emit (WrTXDATA p v).
Definition wr_IFC (p : I2C_TypeDef) (v : Z) : M unit := emit (WrIFC p v).
Definition or_IFC (p : I2C_TypeDef) (v : Z) : M unit := emit (OrIFC p v).

Definition rd_IEN (p : I2C_TypeDef) : M Z := fun s => (Ok (IEN (regs p s)), s).

Definition wr_IEN (p : I2C_TypeDef) (v : Z) : M unit :=
  fun s =>
    let r := regs p s in
    emit (WrIEN p v) (with_regs p (mkRegs v (STATE r) (RXDATA r) (IF_reads r)) s).

Definition rd_STATE (p : I2C_TypeDef) : M Z := fun s => (Ok (STATE (regs p s)), s).

Definition rd_RXDATA (p : I2C_TypeDef) : M Z := fun s => (Ok (RXDATA (regs p s)), s).

(** One read of IF: the next value the hardware answers. *)
Definition rd_IF (p : I2C_TypeDef) : M Z :=
  fun s =>
    let r := regs p s in
    match IF_reads r with
    | [] => (Stalled, s)
    | v :: rest => (Ok v, with_regs p (mkRegs (IEN r) (STATE r) (RXDATA r) rest) s)
    end.

(** Descriptor and memory accesses. *)
Definition get_slot (p : I2C_TypeDef) : M I2C_SM_STRUCT := fun s => (Ok (slot p s), s).

Definition put_slot (p : I2C_TypeDef) (d : I2C_SM_STRUCT) : M unit :=
  fun s => (Ok tt, with_slot p d s).

(** A write to one field of a static descriptor, [i2c_sm->field = v]. *)
Definition upd_slot (p : I2C_TypeDef) (f : I2C_SM_STRUCT -> I2C_SM_STRUCT)
  : M unit :=
  fun s => (Ok tt, with_slot p (f (slot p s)) s).

Definition load (a : Z) : M Z := fun s => (Ok (mem s a), s).

Definition store (a v : Z) : M unit :=
  fun s => (Ok tt, with_mem (fun x => if x =? a then v else mem s x) s).

(** [CORE_ENTER_CRITICAL()]: saves the interrupt mask and suppresses
    interrupts; [CORE_EXIT_CRITICAL()] restores the saved mask. *)
Definition CORE_ENTER_CRITICAL : M bool :=
  fun s =>
    (Ok (primask s), with_trace (trace s ++ [EnterCritical]) (with_primask true s)).

Definition CORE_EXIT_CRITICAL (irqState : bool) : M unit :=
  fun s =>
    (Ok tt, with_trace (trace s ++ [ExitCritical]) (with_primask irqState s)).

(** External collaborators, recorded in the trace. *)
Definition sleep_block_mode : M unit := emit SleepBlock.
Definition sleep_unblock_mode : M unit := emit SleepUnblock.
Definition add_scheduled_event (cb : Z) : M unit := emit (Scheduled cb).
Definition timer_delay : M unit := emit TimerDelay.
Definition NVIC_EnableIRQ (p : I2C_TypeDef) : M unit := emit (NvicEnable p).

(* ------------------------------------------------------------------ *)
(** ** [i2c_bus_reset]                                                 *)
(* ------------------------------------------------------------------ *)

(** [while(!(i2c->IF & I2C_IF_MSTOP));] over the values the hardware
    answers: the reads up to and including the first one with the flag set
    are consumed. *)
Fixpoint poll_mstop (reads : list Z) : option (list Z) :=
  match reads with
  | [] => None
  | v :: rest =>
      if Z.land v I2C_IF_MSTOP =? 0 then poll_mstop rest else Some rest
  end.

Definition wait_mstop (p : I2C_TypeDef) : M unit :=
  fun s =>
    let r := regs p s in
    match poll_mstop (IF_reads r) with
    | Some rest => (Ok tt, with_regs p (mkRegs (IEN r) (STATE r) (RXDATA r) rest) s)
    | None => (Stalled, with_regs p (mkRegs (IEN r) (STATE r) (RXDATA r) []) s)
    end.

Definition i2c_bus_reset (i2c : I2C_TypeDef) : M unit :=
  (* abort current transmission to make bus go idle *)
  wr_CMD i2c I2C_CMD_ABORT ;;
  (* save state of IEN register *)
  ien_state <- rd_IEN i2c ;;
  (* disable all interrupts *)
  wr_IEN i2c _I2C_IEN_RESETVALUE ;;
  (* clear IFC register *)
  wr_IFC i2c _I2C_IFC_MASK ;;
  (* assert that IF register is clear *)
  flags <- rd_IF i2c ;;
  EFM_ASSERT (Z.land flags _I2C_IEN_RESETVALUE =? 0) ;;
  (* clear the transmit buffer *)
  wr_CMD i2c I2C_CMD_CLEARTX ;;
  (* clear MSTOP bit prior to bus reset *)
  or_IFC i2c I2C_IFC_MSTOP ;;
  (* bus reset *)
  wr_CMD i2c (Z.lor I2C_CMD_START I2C_CMD_STOP) ;;
  (* ensure reset occurred properly *)
  wait_mstop i2c ;;
  (* clear any bits that may have been generated by START/STOP *)
  wr_IFC i2c _I2C_IFC_MASK ;;
  (* reset I2C peripheral by setting ABORT bit in CMD register *)
  wr_CMD i2c I2C_CMD_ABORT ;;
  (* restore IEN register *)
  wr_IEN i2c ien_state.

(* ------------------------------------------------------------------ *)
(** ** [i2c_init_sm] and [i2c_tx_start]                                *)
(* ------------------------------------------------------------------ *)

(** [while(i2cN_sm.busy);].  The loop only reads the static descriptor,
    and [i2c_init_sm] enters it after [CORE_ENTER_CRITICAL()], so no
    interrupt handler runs between two tests.  [fuel] bounds the number of
    tests that are modelled; every test is recorded in the trace with the
    value it saw. *)
Fixpoint spin_while_busy (fuel : nat) (p : I2C_TypeDef) : M unit :=
  match fuel with
  | O => stall
  | S fuel' =>
      live <- get_slot p ;;
      emit (PollBusy p (busy live)) ;;
      if busy live then spin_while_busy fuel' p else ret tt
  end.

(** The body executed for the peripheral [p] when [i2c_sm->I2Cn == p]. *)
Definition start_on (fuel : nat) (p : I2C_TypeDef) (i2c_sm : I2C_SM_STRUCT)
  : M unit :=
  (* halt until bus is ready *)
  spin_while_busy fuel p ;;
  (* will trigger if a previous I2C operation has not completed *)
  st <- rd_STATE p ;;
  EFM_ASSERT (Z.land st _I2C_STATE_STATE_MASK =? I2C_STATE_STATE_IDLE) ;;
  put_slot p i2c_sm ;;
  emit (WrSlot p) ;;
  NVIC_EnableIRQ p.

(** [i2c_init_sm(i2c_sm)].  The argument is the caller's descriptor, passed
    by pointer; the function sets its [busy] field before copying it, so
    the value that reaches the static slot is [set_busy I2C_BUS_BUSY]. *)
Definition i2c_init_sm (fuel : nat) (caller_sm : I2C_SM_STRUCT) : M unit :=
  (* the I2C peripheral cannot go below EM2 *)
  sleep_block_mode ;;
  (* atomic operation *)
  irqState <- CORE_ENTER_CRITICAL ;;
  (* set busy bit *)
  let i2c_sm := set_busy I2C_BUS_BUSY caller_sm in
  (* enable interrupts *)
  wr_IEN (I2Cn i2c_sm) I2C_IEN_MASK ;;
  (* if starting the I2C0 peripheral ... *)
  (if I2C_eqb (I2Cn i2c_sm) I2C0 then start_on fuel I2C0 i2c_sm else ret tt) ;;
  (* if starting the I2C1 peripheral ... *)
  (if I2C_eqb (I2Cn i2c_sm) I2C1 then start_on fuel I2C1 i2c_sm else ret tt) ;;
  (* 80ms timer delay to ensure RWM sync *)
  timer_delay ;;
  CORE_EXIT_CRITICAL irqState.

(** The header byte [i2c_tx_start] constructs. *)
Definition r_w_header (addr rw : Z) : Z := wrap32 (Z.lor (Z.shiftl addr 1) rw).

Definition i2c_tx_start (i2c_sm : I2C_SM_STRUCT) (rw : Z) : M unit :=
  (* send start bit *)
  wr_CMD (I2Cn i2c_sm) I2C_CMD_START ;;
  (* transmit header packet *)
  wr_TXDATA (txdata i2c_sm) (r_w_header (slave_addr i2c_sm) rw).

(* ------------------------------------------------------------------ *)
(** ** The four interrupt state machines                               *)
(* ------------------------------------------------------------------ *)

(** Each handler receives a pointer to one of the two static descriptors;
    the argument [p] says which one.  A handler reads the descriptor's
    fields through [i2c_sm] and writes them with [upd_slot]; no field that
    it reads after a write is one that it has written, except [num_bytes]
    in [i2cn_rxdata_sm], whose new value is [n]. *)
Definition i2cn_ack_sm (p : I2C_TypeDef) : M unit :=
  irqState <- CORE_ENTER_CRITICAL ;;
  i2c_sm <- get_slot p ;;
  match curr_state i2c_sm with
  | req_res =>
      (* send command to measure relative humidity *)
      wr_TXDATA (txdata i2c_sm) measure_RH_NHMM ;;
      upd_slot p (set_curr_state command_tx)
  | command_tx =>
      (* send repeated start command *)
      wr_CMD (I2Cn i2c_sm) I2C_CMD_START ;;
      (* send slave addr + read bit *)
      wr_TXDATA (txdata i2c_sm)
        (wrap32 (Z.lor (Z.shiftl (slave_addr i2c_sm) I2C_ADDR_RW_SHIFT)
                       SI7021_I2C_READ)) ;;
      upd_slot p (set_curr_state data_req)
  | data_req =>
      upd_slot p (set_curr_state data_rx)
  | _ =>
      EFM_ASSERT false
  end ;;
  timer_delay ;;
  CORE_EXIT_CRITICAL irqState.

Definition i2cn_nack_sm (p : I2C_TypeDef) : M unit :=
  irqState <- CORE_ENTER_CRITICAL ;;
  i2c_sm <- get_slot p ;;
  match curr_state i2c_sm with
  | req_res =>
      (* send repeated start command *)
      wr_CMD (I2Cn i2c_sm) I2C_CMD_START ;;
      (* re-send slave addr + write bit *)
      wr_TXDATA (txdata i2c_sm) (Z.lor (slave_addr i2c_sm) SI7021_I2C_WRITE)
  | command_tx =>
      (* send CONT command *)
      wr_CMD (I2Cn i2c_sm) I2C_CMD_CONT ;;
      (* re-send command to measure relative humidity *)
      wr_TXDATA (txdata i2c_sm) measure_RH_NHMM
  | data_req =>
      (* re-send repeated start command *)
      wr_CMD (I2Cn i2c_sm) I2C_CMD_START ;;
      (* re-send slave addr + read bit *)
      wr_TXDATA (txdata i2c_sm) (Z.lor (slave_addr i2c_sm) SI7021_I2C_READ)
  | _ =>
      EFM_ASSERT false
  end ;;
  timer_delay ;;
  CORE_EXIT_CRITICAL irqState.

Definition i2cn_rxdata_sm (p : I2C_TypeDef) : M unit :=
  irqState <- CORE_ENTER_CRITICAL ;;
  i2c_sm <- get_slot p ;;
  match curr_state i2c_sm with
  | data_rx =>
      (* decrement num_bytes counter *)
      let n := wrap32 (num_bytes i2c_sm - 1) in
      upd_slot p (set_num_bytes n) ;;
      (* retrieve read data, left shifted by the number of bytes remaining *)
      old <- load (data i2c_sm) ;;
      rx <- rd_RXDATA (rxdata i2c_sm) ;;
      store (data i2c_sm) (Z.lor old (shl32 rx (wrap32 (MSBYTE_SHIFT * n)))) ;;
      (* check if more data is expected ... *)
      if n >? 0 then
        (* send ACK *)
        wr_CMD (I2Cn i2c_sm) I2C_CMD_ACK
      else
        (* send NACK *)
        wr_CMD (I2Cn i2c_sm) I2C_CMD_NACK ;;
        (* change state *)
        upd_slot p (set_curr_state m_stop) ;;
        (* send STOP *)
        wr_CMD (I2Cn i2c_sm) I2C_CMD_STOP
  | _ => ret tt
  end ;;
  timer_delay ;;
  CORE_EXIT_CRITICAL irqState.

Definition i2cn_mstop_sm (p : I2C_TypeDef) : M unit :=
  irqState <- CORE_ENTER_CRITICAL ;;
  i2c_sm <- get_slot p ;;
  match curr_state i2c_sm with
  | m_stop =>
      (* clear I2C State Machine busy bit *)
      upd_slot p (set_busy I2C_BUS_READY) ;;
      (* unblock sleep *)
      sleep_unblock_mode ;;
      (* schedule humidity read call back event *)
      add_scheduled_event (i2c_cb i2c_sm) ;;
      (* reset the I2C bus *)
      i2c_bus_reset (I2Cn i2c_sm)
  | _ =>
      EFM_ASSERT false
  end ;;
  timer_delay ;;
  CORE_EXIT_CRITICAL irqState.

(* ------------------------------------------------------------------ *)
(** ** Runs                                                            *)
(* ------------------------------------------------------------------ *)

(** What can happen to the engine: the task context calls [i2c_init_sm] or
    [i2c_tx_start], or the interrupt vector of a peripheral enters one of
    the handlers on that peripheral's static descriptor.  For a received
    byte the hardware has placed the byte in RXDATA. *)
Inductive action : Type :=
  | Begin (fuel : nat) (d : I2C_SM_STRUCT)
  | TxStart (d : I2C_SM_STRUCT) (rw : Z)
  | IrqAck (p : I2C_TypeDef)
  | IrqNack (p : I2C_TypeDef)
  | IrqRx (p : I2C_TypeDef) (byte : Z)
  | IrqMstop (p : I2C_TypeDef).

Definition hw_receive (p : I2C_TypeDef) (byte : Z) : M unit :=
  fun s =>
    let r := regs p s in
    (Ok tt, with_regs p (mkRegs (IEN r) (STATE r) byte (IF_reads r)) s).

Definition step (a : action) : M unit :=
  match a with
  | Begin fuel d => i2c_init_sm fuel d
  | TxStart d rw => i2c_tx_start d rw
  | IrqAck p => i2cn_ack_sm p
  | IrqNack p => i2cn_nack_sm p
  | IrqRx p byte => hw_receive p byte ;; i2cn_rxdata_sm p
  | IrqMstop p => i2cn_mstop_sm p
  end.

Fixpoint run (acts : list action) : M unit :=
  match acts with
  | [] => ret tt
  | a :: rest => step a ;; run rest
  end.

(** Concrete inputs used by the examples: both peripherals idle, both
    static descriptors free, the destination word zero, and a hardware that
    answers reads of IF with the transmit-buffer-level flag set and raises
    the stop-detected flag on every second read. *)
Definition idle_regs (reads : list Z) : I2C_regs := mkRegs 0 0 0 reads.

Definition blank_sm (p : I2C_TypeDef) : I2C_SM_STRUCT :=
  mkSM p req_res false 0 p p 0 0 0.

Definition sys0 : system :=
  mkSys (idle_regs [0x10; 0x110; 0x10; 0x110]) (idle_regs [0x10; 0x110])
        (blank_sm I2C0) (blank_sm I2C1) (fun _ => 0) false [].

(** I2C0 with the transaction interrupts enabled, as a completed
    transaction leaves it when it enters the bus reset. *)
Definition armed_sys : system :=
  mkSys (mkRegs 0x1E0 0 0 [0; 0; 0x100]) (idle_regs [])
        (blank_sm I2C0) (blank_sm I2C1) (fun _ => 0) true [].

(** A read of [n] bytes from the sensor at address 0x40 on I2C0, as the
    caller fills the descriptor in before it starts the transaction. *)
Definition read_request (n : Z) : I2C_SM_STRUCT :=
  mkSM I2C0 req_res false 0x40 I2C0 I2C0 0x20000000 n 8.

Definition si7021_read : I2C_SM_STRUCT := read_request 2.

(** I2C0 in the middle of a two-byte read: the first byte, 0xAB, is in the
    receive register. *)
Definition receiving_sys : system :=
  mkSys (mkRegs 0x1E0 0 0xAB [0x10; 0x110]) (idle_regs [])
        (mkSM I2C0 data_rx true 0x40 I2C0 I2C0 0x20000000 2 8) (blank_sm I2C1)
        (fun _ => 0) false [].

(* ------------------------------------------------------------------ *)
(** ** Vocabulary of the statements                                    *)
(* ------------------------------------------------------------------ *)

Inductive irq_event : Type := EvAck | EvNack | EvRxdata | EvMstop.

Definition handler (e : irq_event) : I2C_TypeDef -> M unit :=
  match e with
  | EvAck => i2cn_ack_sm
  | EvNack => i2cn_nack_sm
  | EvRxdata => i2cn_rxdata_sm
  | EvMstop => i2cn_mstop_sm
  end.

(** The rows of the transition table of the spec (section 4.3): the states
    that are listed for an event. *)
Definition table_lists (e : irq_event) (c : DEFINED_STATES) : bool :=
  match e, c with
  | EvAck, (req_res | command_tx | data_req) => true
  | EvNack, (req_res | command_tx | data_req) => true
  | EvRxdata, data_rx => true
  | EvMstop, m_stop => true
  | _, _ => false
  end.

(** The effects of one entry of the byte-received handler in [data_rx],
    given the count that remains after the decrement. *)
Definition rx_effects (q : I2C_TypeDef) (remaining : Z) : list effect :=
  EnterCritical ::
  (if remaining >? 0 then [WrCMD q I2C_CMD_ACK]
   else [WrCMD q I2C_CMD_NACK; WrCMD q I2C_CMD_STOP]) ++
  [TimerDelay; ExitCritical].

(** The values of [num_bytes] on the descriptor of [p] after each action
    of a run. *)
Fixpoint num_bytes_history (p : I2C_TypeDef) (acts : list action) (s : system)
  : list Z :=
  match acts with
  | [] => []
  | a :: rest =>
      let s' := snd (step a s) in
      num_bytes (slot p s') :: num_bytes_history p rest s'
  end.

(** [k-1; k-2; ...; 0]. *)
Fixpoint countdown (k : nat) : list Z :=
  match k with
  | O => []
  | S k' => Z.of_nat k' :: countdown k'
  end.

Definition ack_block (q : I2C_TypeDef) : list effect :=
  [EnterCritical; WrCMD q I2C_CMD_ACK; TimerDelay; ExitCritical].

Definition nack_stop_block (q : I2C_TypeDef) : list effect :=
  [EnterCritical; WrCMD q I2C_CMD_NACK; WrCMD q I2C_CMD_STOP;
   TimerDelay; ExitCritical].

(** The number that a sequence of bytes denotes when the first byte is the
    most significant one. *)
Definition payload_msb_first (bytes : list Z) : Z :=
  fold_left (fun acc b => 256 * acc + b) bytes 0.

(** The number of transactions begun on [p] and the number of completion
    paths taken on [p] in a list of actions. *)
Fixpoint begins (p : I2C_TypeDef) (acts : list action) : nat :=
  match acts with
  | [] => 0
  | Begin _ d :: rest =>
      ((if I2C_eqb (I2Cn d) p then 1 else 0) + begins p rest)%nat
  | _ :: rest => begins p rest
  end.

Fixpoint completions (p : I2C_TypeDef) (acts : list action) : nat :=
  match acts with
  | [] => 0
  | IrqMstop q :: rest =>
      ((if I2C_eqb q p then 1 else 0) + completions p rest)%nat
  | _ :: rest => completions p rest
  end.

Definition b2n (b : bool) : nat := if b then 1%nat else 0%nat.

(** The actions of one complete read of the bytes 0xAB and 0x12 once the
    transaction has been begun. *)
Definition read_events (d : I2C_SM_STRUCT) (p : I2C_TypeDef) : list action :=
  [TxStart d SI7021_I2C_WRITE; IrqAck p; IrqAck p; IrqAck p;
   IrqRx p 0xAB; IrqRx p 0x12; IrqMstop p].

(** Everything a complete read of 0xAB, 0x12 from the slave at address
    [addr] does on peripheral [p], from the call of the initiator to the
    end of the stop-detected handler. *)
Definition completed_read_trace (p : I2C_TypeDef) (addr cb : Z) : list effect :=
  [SleepBlock; EnterCritical; WrIEN p I2C_IEN_MASK; PollBusy p false;
   WrSlot p; NvicEnable p; TimerDelay; ExitCritical;
   WrCMD p I2C_CMD_START; WrTXDATA p (r_w_header addr SI7021_I2C_WRITE);
   EnterCritical; WrTXDATA p measure_RH_NHMM; TimerDelay; ExitCritical;
   EnterCritical; WrCMD p I2C_CMD_START;
   WrTXDATA p (r_w_header addr SI7021_I2C_READ); TimerDelay; ExitCritical;
   EnterCritical; TimerDelay; ExitCritical;
   EnterCritical; WrCMD p I2C_CMD_ACK; TimerDelay; ExitCritical;
   EnterCritical; WrCMD p I2C_CMD_NACK; WrCMD p I2C_CMD_STOP;
   TimerDelay; ExitCritical;
   EnterCritical; SleepUnblock; Scheduled cb;
   WrCMD p I2C_CMD_ABORT; WrIEN p _I2C_IEN_RESETVALUE; WrIFC p _I2C_IFC_MASK;
   WrCMD p I2C_CMD_CLEARTX; OrIFC p I2C_IFC_MSTOP;
   WrCMD p (Z.lor I2C_CMD_START I2C_CMD_STOP);
   WrIFC p _I2C_IFC_MASK; WrCMD p I2C_CMD_ABORT; WrIEN p I2C_IEN_MASK;
   TimerDelay; ExitCritical].

Definition is_scheduled (e : effect) : bool :=
  match e with Scheduled _ => true | _ => false end.

Definition is_sleep_unblock (e : effect) : bool :=
  match e with SleepUnblock => true | _ => false end.

Definition is_sleep_block (e : effect) : bool :=
  match e with SleepBlock => true | _ => false end.

(* ------------------------------------------------------------------ *)
(** ** The remaining entry points of [i2c.c]                           *)
(* ------------------------------------------------------------------ *)

(** Modelled from the spec: the device header is missing.  The ACK, NACK
    and receive-data-valid flags are distinct single bits of IF, next to
    the stop-detected flag; they are the four sources of [I2C_IEN_MASK]. *)
Definition I2C_IF_RXDATAV : Z := 0x20.
Definition I2C_IF_ACK : Z := 0x40.
Definition I2C_IF_NACK : Z := 0x80.

(** [i2c_tx_stop(i2c_sm)] and [i2c_tx_cmd(i2c_sm, tx_cmd)], called from the
    task context on the caller's descriptor. *)
Definition i2c_tx_stop (i2c_sm : I2C_SM_STRUCT) : M unit :=
  (* set stop bit in I2C CMD register *)
  wr_CMD (I2Cn i2c_sm) I2C_CMD_STOP.

Definition i2c_tx_cmd (i2c_sm : I2C_SM_STRUCT) (tx_cmd : Z) : M unit :=
  (* transmit command via TXDATA *)
  wr_TXDATA (txdata i2c_sm) tx_cmd.

(** [if (intflags & FLAG) { handler(&i2cN_sm); }] *)
Definition on_flag (intflags flag : Z) (h : M unit) : M unit :=
  if Z.land intflags flag =? 0 then ret tt else h.

(** [I2C0_IRQHandler] and [I2C1_IRQHandler]: the two functions have the
    same text, one on [I2C0] and [i2c0_sm], the other on [I2C1] and
    [i2c1_sm]; [I2Cn_IRQHandler] is that text with the peripheral as its
    argument. *)
Definition I2Cn_IRQHandler (p : I2C_TypeDef) : M unit :=
  (* save flags that are both enabled and raised *)
  flags <- rd_IF p ;;
  ien <- rd_IEN p ;;
  let intflags := Z.land flags ien in
  (* lower flags *)
  wr_IFC p intflags ;;
  (* handle ACK *)
  on_flag intflags I2C_IF_ACK (i2cn_ack_sm p) ;;
  (* handle NACK *)
  on_flag intflags I2C_IF_NACK (i2cn_nack_sm p) ;;
  (* handle RXDATAV *)
  on_flag intflags I2C_IF_RXDATAV (i2cn_rxdata_sm p) ;;
  (* handle MSTOP *)
  on_flag intflags I2C_IF_MSTOP (i2cn_mstop_sm p).

Definition I2C0_IRQHandler : M unit := I2Cn_IRQHandler I2C0.
Definition I2C1_IRQHandler : M unit := I2Cn_IRQHandler I2C1.

(* ------------------------------------------------------------------ *)
(** ** [i2c_open]                                                      *)
(* ------------------------------------------------------------------ *)

(** Modelled from the spec: the device header is missing.  The START flag
    is one bit of IF, set through the same bit of IFS and cleared through
    the same bit of IFC. *)
Definition I2C_IFS_START : Z := 0x1.
Definition I2C_IFC_START : Z := 0x1.

(** Modelled from the spec: [i2c.h] is missing; the fields are the ones
    that [i2c_open] reads. *)
Record I2C_OPEN_STRUCT : Type := mkOpen {
  enable : bool;
  master : bool;
  freq : Z;
  refFreq : Z;
  clhr : Z;
  sda_loc : Z;
  scl_loc : Z;
  sda_pen : Z;
  scl_pen : Z
}.

(** Modelled from the spec: the library header is missing; the fields of
    [I2C_Init_TypeDef] are the ones that [i2c_open] fills in. *)
Record I2C_Init_TypeDef : Type := mkInit {
  init_enable : bool;
  init_master : bool;
  init_freq : Z;
  init_refFreq : Z;
  init_clhr : Z
}.

(** The effects of [i2c_open], in program order: its own, and the ones of
    the code above that it shares ([Engine]). *)
Inductive setup_effect : Type :=
  | ClockEnable (p : I2C_TypeDef)         (* CMU_ClockEnable(cmuClock_I2Cn, true) *)
  | WrIFS (p : I2C_TypeDef) (v : Z)       (* i2c->IFS = v *)
  | InitCall (p : I2C_TypeDef) (cfg : I2C_Init_TypeDef) (* I2C_Init(i2c, &cfg) *)
  | OrROUTELOC0 (p : I2C_TypeDef) (v : Z) (* i2c->ROUTELOC0 |= v *)
  | OrROUTEPEN (p : I2C_TypeDef) (v : Z)  (* i2c->ROUTEPEN |= v *)
  | Engine (e : effect).

(** The system together with the pin routing registers of the two
    peripherals, which are plain storage. *)
Record board : Type := mkBoard {
  engine : system;
  ROUTELOC0 : I2C_TypeDef -> Z;
  ROUTEPEN : I2C_TypeDef -> Z;
  setup_log : list setup_effect
}.

Definition MB (A : Type) : Type := board -> res A * board.

Definition retB {A : Type} (a : A) : MB A := fun b => (Ok a, b).

Definition bindB {A B : Type} (m : MB A) (k : A -> MB B) : MB B :=
  fun b =>
    match m b with
    | (Ok a, b') => k a b'
    | (AssertFailed, b') => (AssertFailed, b')
    | (Stalled, b') => (Stalled, b')
    end.

Declare Scope board_scope.
Notation "x <- m ;; k" := (bindB m (fun x => k))
  (at level 61, m at next level, right associativity) : board_scope.
Notation "m ;; k" := (bindB m (fun _ => k))
  (at level 61, right associativity) : board_scope.

Definition logB (e : setup_effect) : MB unit :=
  fun b =>
    (Ok tt, mkBoard (engine b) (ROUTELOC0 b) (ROUTEPEN b) (setup_log b ++ [e])).

Definition assertB (c : bool) : MB unit :=
  fun b => if c then (Ok tt, b) else (AssertFailed, b).

(** A program of the code above run on the board: the effects it adds to
    the trace of the system are added to the log of the board. *)
Definition lift {A : Type} (m : M A) : MB A :=
  fun b =>
    let out := m (engine b) in
    (fst out,
     mkBoard (snd out) (ROUTELOC0 b) (ROUTEPEN b)
             (setup_log b ++
              map Engine (skipn (length (trace (engine b))) (trace (snd out))))).

(** [I2C_Init(i2c, &cfg)], a library function that is not part of the
    sources: it is the argument [init], which may return, fail or hang
    and may do anything to the system and to the routing registers.  The
    call itself is recorded in the log. *)
Definition call_init (init : I2C_TypeDef -> I2C_Init_TypeDef -> MB unit)
           (p : I2C_TypeDef) (cfg : I2C_Init_TypeDef) : MB unit :=
  fun b =>
    let out := init p cfg b in
    (fst out,
     mkBoard (engine (snd out)) (ROUTELOC0 (snd out)) (ROUTEPEN (snd out))
             (setup_log b ++ [InitCall p cfg])).

Definition or_ROUTELOC0 (p : I2C_TypeDef) (v : Z) : MB unit :=
  fun b =>
    (Ok tt,
     mkBoard (engine b)
             (fun q => if I2C_eqb q p then Z.lor (ROUTELOC0 b q) v else ROUTELOC0 b q)
             (ROUTEPEN b) (setup_log b ++ [OrROUTELOC0 p v])).

Definition or_ROUTEPEN (p : I2C_TypeDef) (v : Z) : MB unit :=
  fun b =>
    (Ok tt,
     mkBoard (engine b) (ROUTELOC0 b)
             (fun q => if I2C_eqb q p then Z.lor (ROUTEPEN b q) v else ROUTEPEN b q)
             (setup_log b ++ [OrROUTEPEN p v])).

Open Scope board_scope.

Definition i2c_open (init : I2C_TypeDef -> I2C_Init_TypeDef -> MB unit)
           (i2c : I2C_TypeDef) (app_i2c_open : I2C_OPEN_STRUCT) : MB unit :=
  (* if the address of i2c is the base address of I2C0, enable its clock *)
  (if I2C_eqb i2c I2C0 then logB (ClockEnable I2C0) else retB tt) ;;
  (* if the address of i2c is the base address of I2C1, enable its clock *)
  (if I2C_eqb i2c I2C1 then logB (ClockEnable I2C1) else retB tt) ;;
  flags <- lift (rd_IF i2c) ;;
  (if Z.land flags I2C_IFS_START =? 0 then
     (* set the START interrupt flag and assert that it has been set *)
     logB (WrIFS i2c I2C_IFS_START) ;;
     after <- lift (rd_IF i2c) ;;
     assertB (negb (Z.land after I2C_IFS_START =? 0))
   else
     (* clear START flag and assert that it has been cleared *)
     lift (wr_IFC i2c I2C_IFC_START) ;;
     after <- lift (rd_IF i2c) ;;
     assertB (Z.land after I2C_IFS_START =? 0)) ;;
  (* set values for I2C_Init and initialize the peripheral *)
  call_init init i2c
            (mkInit (enable app_i2c_open) (master app_i2c_open)
                    (freq app_i2c_open) (refFreq app_i2c_open)
                    (clhr app_i2c_open)) ;;
  (* set route location for SDA and SCL *)
  or_ROUTELOC0 i2c (sda_loc app_i2c_open) ;;
  or_ROUTELOC0 i2c (scl_loc app_i2c_open) ;;
  (* enable pin route *)
  or_ROUTEPEN i2c (sda_pen app_i2c_open) ;;
  or_ROUTEPEN i2c (scl_pen app_i2c_open) ;;
  (* reset the I2C bus *)
  lift (i2c_bus_reset i2c).

Close Scope board_scope.

(* ------------------------------------------------------------------ *)
(** ** Vocabulary of the further properties                            *)
(* ------------------------------------------------------------------ *)

(** The events that one entry of the interrupt vector handles, in the
    order in which it handles them; [byte] is the content of the receive
    register. *)
Definition pending_events (intflags : Z) (p : I2C_TypeDef) (byte : Z)
  : list action :=
  (if Z.land intflags I2C_IF_ACK =? 0 then [] else [IrqAck p]) ++
  (if Z.land intflags I2C_IF_NACK =? 0 then [] else [IrqNack p]) ++
  (if Z.land intflags I2C_IF_RXDATAV =? 0 then [] else [IrqRx p byte]) ++
  (if Z.land intflags I2C_IF_MSTOP =? 0 then [] else [IrqMstop p]).

(** The position of a state in the order in which a read visits them. *)
Definition state_rank (c : DEFINED_STATES) : nat :=
  match c with
  | req_res => 0
  | command_tx => 1
  | data_req => 2
  | data_rx => 3
  | m_stop => 4
  end.

(** The command and the byte that the NACK handler issues for a
    descriptor, and the block of effects of one retry. *)
Definition nack_retry (d : I2C_SM_STRUCT) : option (Z * Z) :=
  match curr_state d with
  | req_res => Some (I2C_CMD_START, Z.lor (slave_addr d) SI7021_I2C_WRITE)
  | command_tx => Some (I2C_CMD_CONT, measure_RH_NHMM)
  | data_req => Some (I2C_CMD_START, Z.lor (slave_addr d) SI7021_I2C_READ)
  | _ => None
  end.

Definition nack_block (d : I2C_SM_STRUCT) : list effect :=
  match nack_retry d with
  | Some (cmd, byte) =>
      [EnterCritical; WrCMD (I2Cn d) cmd; WrTXDATA (txdata d) byte;
       TimerDelay; ExitCritical]
  | None => []
  end.

(** What the ACK handler does in the three states it handles: the writes
    it issues and the state it moves to. *)
Definition ack_writes (d : I2C_SM_STRUCT) : list effect :=
  match curr_state d with
  | req_res => [WrTXDATA (txdata d) measure_RH_NHMM]
  | command_tx =>
      [WrCMD (I2Cn d) I2C_CMD_START;
       WrTXDATA (txdata d) (r_w_header (slave_addr d) SI7021_I2C_READ)]
  | _ => []
  end.

Definition ack_next (c : DEFINED_STATES) : DEFINED_STATES :=
  match c with
  | req_res => command_tx
  | command_tx => data_req
  | _ => data_rx
  end.

(** A transaction in flight on I2C0, as the initiator leaves it. *)
Definition started_sys : system := snd (i2c_init_sm 1 si7021_read sys0).

(** Each static descriptor drives its own peripheral. *)
Definition slots_bound (s : system) : Prop :=
  I2Cn (slot I2C0 s) = I2C0 /\ I2Cn (slot I2C1 s) = I2C1.


Definition is_begin (a : action) : bool :=
  match a with Begin _ _ => true | _ => false end.

Definition is_stop_event (a : action) : bool :=
  match a with IrqMstop _ => true | _ => false end.


(** The effects of the completion path on the peripheral [q], for the
    callback [cb], when IEN holds [ien] on entry. *)
Definition completion_trace (q : I2C_TypeDef) (cb ien : Z) : list effect :=
  [EnterCritical; SleepUnblock; Scheduled cb;
   WrCMD q I2C_CMD_ABORT; WrIEN q _I2C_IEN_RESETVALUE; WrIFC q _I2C_IFC_MASK;
   WrCMD q I2C_CMD_CLEARTX; OrIFC q I2C_IFC_MSTOP;
   WrCMD q (Z.lor I2C_CMD_START I2C_CMD_STOP);
   WrIFC q _I2C_IFC_MASK; WrCMD q I2C_CMD_ABORT; WrIEN q ien;
   TimerDelay; ExitCritical].

(** The state in which the completion path leaves the system. *)
Definition completed (p : I2C_TypeDef) (rest' : list Z) (s : system) : system :=
  let d := slot p s in
  let q := I2Cn d in
  let r := regs q s in
  with_primask (primask s)
    (with_trace (trace s ++ completion_trace q (i2c_cb d) (IEN r))
       (with_regs q (mkRegs (IEN r) (STATE r) (RXDATA r) rest')
          (with_slot p (set_busy I2C_BUS_READY d) s))).

(** The state in which the vector enters its handlers: the read of IF
    answered, the flags that are raised and enabled written to IFC. *)
Definition acknowledged (p : I2C_TypeDef) (v : Z) (rest : list Z) (s : system)
  : system :=
  let r := regs p s in
  with_trace (trace s ++ [WrIFC p (Z.land v (IEN r))])
             (with_regs p (mkRegs (IEN r) (STATE r) (RXDATA r) rest) s).

(** The vector of a peripheral. *)
Definition irq_vector (p : I2C_TypeDef) : M unit :=
  match p with
  | I2C0 => I2C0_IRQHandler
  | I2C1 => I2C1_IRQHandler
  end.

Definition with_engine (e : system) (b : board) : board :=
  mkBoard e (ROUTELOC0 b) (ROUTEPEN b) (setup_log b).

Definition with_log (l : list setup_effect) (b : board) : board :=
  mkBoard (engine b) (ROUTELOC0 b) (ROUTEPEN b) l.

(** The part of [i2c_open] after the test of the START flag. *)
Definition i2c_open_configure
           (init : I2C_TypeDef -> I2C_Init_TypeDef -> MB unit)
           (i2c : I2C_TypeDef) (app : I2C_OPEN_STRUCT) : MB unit :=
  bindB (call_init init i2c
           (mkInit (enable app) (master app) (freq app) (refFreq app) (clhr app)))
    (fun _ =>
       bindB (or_ROUTELOC0 i2c (sda_loc app))
         (fun _ =>
            bindB (or_ROUTELOC0 i2c (scl_loc app))
              (fun _ =>
                 bindB (or_ROUTEPEN i2c (sda_pen app))
                   (fun _ =>
                      bindB (or_ROUTEPEN i2c (scl_pen app))
                        (fun _ => lift (i2c_bus_reset i2c)))))).

(** The board after the test of the START flag: the clock enabled, two
    reads of IF answered, the flag toggled. *)
Definition start_flag_toggled (p : I2C_TypeDef) (v1 : Z) (rest : list Z)
           (b : board) : board :=
  let e := engine b in
  let r := regs p e in
  let e' := with_regs p (mkRegs (IEN r) (STATE r) (RXDATA r) rest) e in
  if Z.land v1 I2C_IFS_START =? 0
  then with_log (setup_log b ++ [ClockEnable p; WrIFS p I2C_IFS_START])
                (with_engine e' b)
  else with_log (setup_log b ++
                 [ClockEnable p; Engine (WrIFC p I2C_IFC_START)])
                (with_engine (with_trace (trace e ++ [WrIFC p I2C_IFC_START]) e') b).

(** [reg |= v] on the routing register of peripheral [p]. *)
Definition or_route (p : I2C_TypeDef) (v : Z) (f : I2C_TypeDef -> Z)
  : I2C_TypeDef -> Z :=
  fun q => if I2C_eqb q p then Z.lor (f q) v else f q.

(** The board after the routing of the pins, with [b1] the board as
    [I2C_Init] left it and [lg] the log before the call of [I2C_Init]. *)
Definition routed (p : I2C_TypeDef) (app : I2C_OPEN_STRUCT) (b1 : board)
           (lg : list setup_effect) : board :=
  mkBoard (engine b1)
    (or_route p (scl_loc app) (or_route p (sda_loc app) (ROUTELOC0 b1)))
    (or_route p (scl_pen app) (or_route p (sda_pen app) (ROUTEPEN b1)))
    (lg ++
     [InitCall p (mkInit (enable app) (master app) (freq app) (refFreq app)
                         (clhr app));
      OrROUTELOC0 p (sda_loc app); OrROUTELOC0 p (scl_loc app);
      OrROUTEPEN p (sda_pen app); OrROUTEPEN p (scl_pen app)]).

(** The effects of a bus reset that returns. *)
Definition bus_reset_effects (p : I2C_TypeDef) (ien : Z) : list effect :=
  [WrCMD p I2C_CMD_ABORT; WrIEN p _I2C_IEN_RESETVALUE; WrIFC p _I2C_IFC_MASK;
   WrCMD p I2C_CMD_CLEARTX; OrIFC p I2C_IFC_MSTOP;
   WrCMD p (Z.lor I2C_CMD_START I2C_CMD_STOP);
   WrIFC p _I2C_IFC_MASK; WrCMD p I2C_CMD_ABORT; WrIEN p ien].

(** A stand-in for [I2C_Init] that leaves the modelled registers alone. *)
Definition init_keeps_board : I2C_TypeDef -> I2C_Init_TypeDef -> MB unit :=
  fun _ _ => retB tt.

(** The settings of the application for the Si7021: 392157 Hz, SDA and
    SCL at location 15, both pins enabled. *)
Definition si7021_open : I2C_OPEN_STRUCT :=
  mkOpen true true 392157 0 0 0xF 0xF00 0x1 0x2.

(** A board after reset, whose hardware answers the reads of IF of I2C0
    with [reads]. *)
Definition reset_board (reads : list Z) : board :=
  mkBoard (mkSys (idle_regs reads) (idle_regs [])
                 (blank_sm I2C0) (blank_sm I2C1) (fun _ => 0) false [])
          (fun _ => 0) (fun _ => 0) [].

(** [b'] has every routing bit that [b] has, and the routing registers
    of the peripherals other than [p] are the same. *)
Definition routes_kept (p : I2C_TypeDef) (b b' : board) : Prop :=
  (forall q, q <> p ->
             ROUTELOC0 b' q = ROUTELOC0 b q /\ ROUTEPEN b' q = ROUTEPEN b q) /\
  (forall n, Z.testbit (ROUTELOC0 b p) n = true ->
             Z.testbit (ROUTELOC0 b' p) n = true) /\
  (forall n, Z.testbit (ROUTEPEN b p) n = true ->
             Z.testbit (ROUTEPEN b' p) n = true).





(** The stop-detected flag is clear in a value read from IF. *)
Definition mstop_clear (v : Z) : Prop := Z.land v I2C_IF_MSTOP = 0.

(** The calls and events that take a read of [n] bytes on I2C0 from the
    free descriptor to [data_rx]. *)
Definition to_data_rx (n : Z) : list action :=
  [Begin 1 (read_request n);
   TxStart (read_request n) SI7021_I2C_WRITE;
   IrqAck I2C0; IrqAck I2C0; IrqAck I2C0].

(* ------------------------------------------------------------------ *)
(** ** Symbolic execution                                              *)
(* ------------------------------------------------------------------ *)

Ltac exec :=
  cbv beta iota zeta delta
    [step i2c_init_sm start_on i2c_tx_start i2cn_ack_sm i2cn_nack_sm
     i2cn_rxdata_sm i2cn_mstop_sm i2c_bus_reset hw_receive
     bind ret emit EFM_ASSERT stall wr_CMD wr_TXDATA wr_IFC or_IFC rd_IEN
     wr_IEN rd_STATE rd_RXDATA rd_IF get_slot put_slot upd_slot load store
     CORE_ENTER_CRITICAL CORE_EXIT_CRITICAL sleep_block_mode
     sleep_unblock_mode add_scheduled_event timer_delay NVIC_EnableIRQ
     wait_mstop regs slot with_regs with_slot with_mem with_primask
     with_trace set_busy set_curr_state set_num_bytes I2C_eqb
     regs0 regs1 i2c0_sm i2c1_sm mem primask trace
     IEN STATE RXDATA IF_reads
     I2Cn curr_state busy slave_addr txdata rxdata data num_bytes i2c_cb
     fst snd] in *.

(** The same, with the bus reset kept as a call. *)
Ltac exec_calls :=
  cbv beta iota zeta delta
    [step i2c_init_sm start_on i2c_tx_start i2cn_ack_sm i2cn_nack_sm
     i2cn_rxdata_sm i2cn_mstop_sm hw_receive
     bind ret emit EFM_ASSERT stall wr_CMD wr_TXDATA rd_STATE rd_RXDATA
     get_slot put_slot upd_slot load store
     CORE_ENTER_CRITICAL CORE_EXIT_CRITICAL sleep_block_mode
     sleep_unblock_mode add_scheduled_event timer_delay NVIC_EnableIRQ
     regs slot with_regs with_slot with_mem with_primask
     with_trace set_busy set_curr_state set_num_bytes I2C_eqb
     regs0 regs1 i2c0_sm i2c1_sm mem primask trace
     IEN STATE RXDATA IF_reads
     I2Cn curr_state busy slave_addr txdata rxdata data num_bytes i2c_cb
     fst snd] in *.

Lemma land_reset_value_is_zero (v : Z) :
  (Z.land v _I2C_IEN_RESETVALUE =? 0) = true.
Proof. unfold _I2C_IEN_RESETVALUE. rewrite Z.land_0_r. reflexivity. Qed.

(** The bus reset in closed form: it stalls when the hardware answers no
    read with the stop-detected flag set after the first one, and returns
    otherwise; it never takes the assertion branch. *)
Lemma i2c_bus_reset_run (p : I2C_TypeDef) (s : system) :
  i2c_bus_reset p s =
  let r := regs p s in
  let t1 := trace s ++ [WrCMD p I2C_CMD_ABORT; WrIEN p _I2C_IEN_RESETVALUE;
                        WrIFC p _I2C_IFC_MASK] in
  let t2 := t1 ++ [WrCMD p I2C_CMD_CLEARTX; OrIFC p I2C_IFC_MSTOP;
                   WrCMD p (Z.lor I2C_CMD_START I2C_CMD_STOP)] in
  match IF_reads r with
  | [] =>
      (Stalled,
       with_trace t1
         (with_regs p (mkRegs _I2C_IEN_RESETVALUE (STATE r) (RXDATA r) []) s))
  | v :: rest =>
      match poll_mstop rest with
      | None =>
          (Stalled,
           with_trace t2
             (with_regs p (mkRegs _I2C_IEN_RESETVALUE (STATE r) (RXDATA r) []) s))
      | Some rest' =>
          (Ok tt,
           with_trace
             (t2 ++ [WrIFC p _I2C_IFC_MASK; WrCMD p I2C_CMD_ABORT;
                     WrIEN p (IEN r)])
             (with_regs p (mkRegs (IEN r) (STATE r) (RXDATA r) rest') s))
      end
  end.
Proof.
  destruct s as [r0 r1 d0 d1 m pm t].
  destruct p.
  - destruct r0 as [ien st rx reads]. exec.
    destruct reads as [|v rest]; [rewrite <- !app_assoc; reflexivity|].
    rewrite land_reset_value_is_zero.
    destruct (poll_mstop rest); rewrite <- !app_assoc; reflexivity.
  - destruct r1 as [ien st rx reads]. exec.
    destruct reads as [|v rest]; [rewrite <- !app_assoc; reflexivity|].
    rewrite land_reset_value_is_zero.
    destruct (poll_mstop rest); rewrite <- !app_assoc; reflexivity.
Qed.

(** X2. The bus reset never fails its assertion, whatever the hardware
    answers when IF is read: it returns or it stalls in its wait. *)
Lemma i2c_bus_reset_never_asserts (p : I2C_TypeDef) (s : system) :
  fst (i2c_bus_reset p s) <> AssertFailed.
Proof.
  rewrite i2c_bus_reset_run. cbv zeta.
  destruct (IF_reads (regs p s)) as [|v rest]; [discriminate|].
  destruct (poll_mstop rest); discriminate.
Qed.

Lemma regs_with_regs_same (p : I2C_TypeDef) (r : I2C_regs) (s : system) :
  regs p (with_regs p r s) = r.
Proof. destruct p; reflexivity. Qed.

Lemma regs_with_trace (p : I2C_TypeDef) (t : list effect) (s : system) :
  regs p (with_trace t s) = regs p s.
Proof. destruct p; reflexivity. Qed.

Lemma trace_with_regs (p : I2C_TypeDef) (r : I2C_regs) (s : system) :
  trace (with_regs p r s) = trace s.
Proof. destruct p; reflexivity. Qed.

Lemma poll_mstop_until (waits : list Z) (f : Z) (rest' : list Z) :
  Forall mstop_clear waits ->
  Z.land f I2C_IF_MSTOP <> 0 ->
  poll_mstop (waits ++ f :: rest') = Some rest'.
Proof.
  intros Hwaits Hf.
  induction Hwaits as [|w waits Hw _ IH]; cbn [app poll_mstop].
  - destruct (Z.eqb_spec (Z.land f I2C_IF_MSTOP) 0); [contradiction | reflexivity].
  - unfold mstop_clear in Hw. rewrite Hw. exact IH.
Qed.

Lemma poll_mstop_never (waits : list Z) :
  Forall mstop_clear waits -> poll_mstop waits = None.
Proof.
  intros Hwaits.
  induction Hwaits as [|w waits Hw _ IH]; cbn [poll_mstop]; [reflexivity|].
  unfold mstop_clear in Hw. rewrite Hw. exact IH.
Qed.

(** X1. The wait of the bus reset is bounded by the hardware's answer and
    by nothing else.  When the reads of IF are answered by [v] (the read
    of the assertion), then by [waits], none of which shows the
    stop-detected flag, then by [f], which shows it, the call returns and
    has consumed the reads up to and including [f] and no read after it:
    the answers left are [rest'].  It does not return earlier: with the
    answers cut off before [f] the call stalls in its wait. *)
Lemma i2c_bus_reset_terminates (p : I2C_TypeDef) (s : system) (v f : Z)
      (waits rest' : list Z) :
  IF_reads (regs p s) = v :: waits ++ f :: rest' ->
  Forall mstop_clear waits ->
  Z.land f I2C_IF_MSTOP <> 0 ->
  let r := regs p s in
  let cut := with_regs p (mkRegs (IEN r) (STATE r) (RXDATA r) (v :: waits)) s in
  fst (i2c_bus_reset p s) = Ok tt /\
  IF_reads (regs p (snd (i2c_bus_reset p s))) = rest' /\
  fst (i2c_bus_reset p cut) = Stalled.
Proof.
  intros Hreads Hwaits Hf. cbv zeta. rewrite !i2c_bus_reset_run. cbv zeta.
  rewrite Hreads, (poll_mstop_until waits f rest' Hwaits Hf).
  rewrite regs_with_regs_same. cbn [IF_reads fst snd].
  rewrite (poll_mstop_never waits Hwaits).
  rewrite regs_with_trace, regs_with_regs_same.
  repeat split.
Qed.

Lemma i2c_bus_reset_terminates_witness :
  fst (i2c_bus_reset I2C0 armed_sys) = Ok tt /\
  IF_reads (regs I2C0 (snd (i2c_bus_reset I2C0 armed_sys))) = [].
Proof.
  refine (let H := i2c_bus_reset_terminates I2C0 armed_sys 0 0x100 [0] [] _ _ _
          in conj (proj1 H) (proj1 (proj2 H))).
  - reflexivity.
  - repeat constructor.
  - vm_compute. discriminate.
Defined.

(** C7. Every call of the bus reset procedure that returns leaves the
    interrupt-enable register IEN of the peripheral with the value it had
    before the call, although the procedure writes the all-disabled value
    to IEN first: the writes it performs are, in order, ABORT, IEN := 0,
    IFC := mask, CLEARTX, IFC |= MSTOP, START+STOP, IFC := mask, ABORT,
    IEN := the saved value. *)
Theorem i2c_bus_reset_restores_IEN (p : I2C_TypeDef) (s s' : system) :
  i2c_bus_reset p s = (Ok tt, s') ->
  IEN (regs p s') = IEN (regs p s) /\
  trace s' =
    trace s ++
    [WrCMD p I2C_CMD_ABORT; WrIEN p _I2C_IEN_RESETVALUE; WrIFC p _I2C_IFC_MASK;
     WrCMD p I2C_CMD_CLEARTX; OrIFC p I2C_IFC_MSTOP;
     WrCMD p (Z.lor I2C_CMD_START I2C_CMD_STOP);
     WrIFC p _I2C_IFC_MASK; WrCMD p I2C_CMD_ABORT; WrIEN p (IEN (regs p s))].
Proof.
  rewrite i2c_bus_reset_run. cbv zeta.
  destruct (IF_reads (regs p s)) as [|v rest]; [discriminate|].
  destruct (poll_mstop rest) as [rest'|]; [|discriminate].
  intros H. injection H as <-.
  split.
  - rewrite regs_with_trace, regs_with_regs_same. reflexivity.
  - destruct p; cbn [trace with_trace]; rewrite <- !app_assoc; reflexivity.
Qed.

Lemma i2c_bus_reset_restores_IEN_witness :
  fst (i2c_bus_reset I2C0 armed_sys) = Ok tt /\
  IEN (regs I2C0 (snd (i2c_bus_reset I2C0 armed_sys))) = 0x1E0.
Proof.
  split; [vm_compute; reflexivity|].
  refine (proj1 (i2c_bus_reset_restores_IEN
                   I2C0 armed_sys (snd (i2c_bus_reset I2C0 armed_sys)) _)).
  vm_compute. reflexivity.
Defined.

(** C8. The assertion that follows the clearing of the interrupt flags in
    the bus reset procedure tests IF against [_I2C_IEN_RESETVALUE], the
    all-zero word, so it holds for every value of IF.  Evaluated on a
    peripheral whose IF reads 0x7FFFF (every flag set) at the assertion, the
    procedure does not fail: it runs to its end. *)
Theorem i2c_bus_reset_assertion_is_vacuous :
  Z.land 0x7FFFF _I2C_IEN_RESETVALUE = 0 /\
  fst (i2c_bus_reset I2C0
         (mkSys (idle_regs [0x7FFFF; 0x100]) (idle_regs [])
                (blank_sm I2C0) (blank_sm I2C1) (fun _ => 0) true []))
  = Ok tt.
Proof. split; vm_compute; reflexivity. Qed.

(* ------------------------------------------------------------------ *)
(** ** The handlers outside and inside the transition table            *)
(* ------------------------------------------------------------------ *)

Ltac split_system s p :=
  destruct s as [[? ? ? ?] [? ? ? ?] [? ? ? ? ? ? ? ? ?] [? ? ? ? ? ? ? ? ?] ? ? ?];
  destruct p.

(** C9. An event delivered in a state that the transition table does not
    list for it makes the ACK, NACK and stop-detected handlers fail their
    assertion; the byte-received handler instead returns and changes
    nothing: no register write, no descriptor write, no memory write; its
    only effects are entering and leaving the critical section and the
    settle delay. *)
Theorem unlisted_event_is_fatal_except_rxdata
        (e : irq_event) (p : I2C_TypeDef) (s : system) :
  table_lists e (curr_state (slot p s)) = false ->
  match e with
  | EvRxdata =>
      handler e p s =
      (Ok tt, with_trace (trace s ++ [EnterCritical; TimerDelay; ExitCritical]) s)
  | _ => fst (handler e p s) = AssertFailed
  end.
Proof.
  intros H. split_system s p; destruct e; cbn [handler];
    exec;
    match type of H with
    | table_lists _ ?c = false => destruct c; try discriminate H
    end.
  all: rewrite <- ?app_assoc; reflexivity.
Qed.

Lemma unlisted_event_is_fatal_except_rxdata_witness :
  fst (i2cn_mstop_sm I2C0 sys0) = AssertFailed /\
  fst (i2cn_rxdata_sm I2C0 sys0) = Ok tt.
Proof.
  split.
  - refine (unlisted_event_is_fatal_except_rxdata EvMstop I2C0 sys0 _).
    vm_compute. reflexivity.
  - refine (f_equal fst
              (unlisted_event_is_fatal_except_rxdata EvRxdata I2C0 sys0 _)).
    vm_compute. reflexivity.
Defined.

(** The part of the NACK row that the code honours: in the three listed
    states the handler returns, leaves the descriptor, the registers and
    the memory as they were, and issues one command followed by one write
    of the transmit register. *)
Lemma i2cn_nack_sm_retries (p : I2C_TypeDef) (s : system) :
  let d := slot p s in
  forall cmd byte,
    match curr_state d with
    | req_res =>
        cmd = I2C_CMD_START /\ byte = Z.lor (slave_addr d) SI7021_I2C_WRITE
    | command_tx => cmd = I2C_CMD_CONT /\ byte = measure_RH_NHMM
    | data_req =>
        cmd = I2C_CMD_START /\ byte = Z.lor (slave_addr d) SI7021_I2C_READ
    | _ => False
    end ->
    i2cn_nack_sm p s =
    (Ok tt,
     with_trace (trace s ++ [EnterCritical; WrCMD (I2Cn d) cmd;
                            WrTXDATA (txdata d) byte; TimerDelay; ExitCritical])
                s).
Proof.
  cbv zeta. intros cmd byte H. split_system s p; exec;
    match type of H with
    | match ?c with req_res => _ | _ => _ end => destruct c; try contradiction
    end;
    destruct H as [-> ->]; rewrite <- ?app_assoc; reflexivity.
Qed.

(** The header bytes differ for the sensor's address whatever the
    read/write bit is: the retransmission leaves the address unshifted. *)
Lemma unshifted_header_differs (rw : Z) :
  0 <= rw <= 1 -> Z.lor 0x40 rw <> r_w_header 0x40 rw.
Proof.
  intros H. assert (rw = 0 \/ rw = 1) as [-> | ->] by lia; discriminate.
Qed.

(** C2. On a NACK in [req_res] for the sensor at address 0x40, the handler
    keeps the state and reissues START, but the byte it writes to the
    transmit register is the unshifted address 0x40, whereas the original
    transmission by [i2c_tx_start] writes the header 0x80 (the address
    shifted left by one, or'ed with the write bit); likewise in [data_req]
    it writes 0x41 where the original read header is 0x81. *)
Theorem i2cn_nack_sm_retransmits_unshifted_address :
  let live := with_slot I2C0 (set_busy true si7021_read) sys0 in
  let waiting := with_slot I2C0 (set_curr_state data_req (set_busy true si7021_read)) sys0 in
  trace (snd (i2c_tx_start si7021_read SI7021_I2C_WRITE sys0)) =
    [WrCMD I2C0 I2C_CMD_START; WrTXDATA I2C0 0x80] /\
  i2cn_nack_sm I2C0 live =
    (Ok tt,
     with_trace [EnterCritical; WrCMD I2C0 I2C_CMD_START; WrTXDATA I2C0 0x40;
                 TimerDelay; ExitCritical] live) /\
  trace (snd (i2cn_ack_sm I2C0
                (with_slot I2C0 (set_curr_state command_tx (set_busy true si7021_read)) sys0))) =
    [EnterCritical; WrCMD I2C0 I2C_CMD_START; WrTXDATA I2C0 0x81;
     TimerDelay; ExitCritical] /\
  i2cn_nack_sm I2C0 waiting =
    (Ok tt,
     with_trace [EnterCritical; WrCMD I2C0 I2C_CMD_START; WrTXDATA I2C0 0x41;
                 TimerDelay; ExitCritical] waiting).
Proof. cbv zeta. repeat split; vm_compute; reflexivity. Qed.

(* ------------------------------------------------------------------ *)
(** ** The byte-received handler in [data_rx]                          *)
(* ------------------------------------------------------------------ *)

(** What one entry of the handler in [data_rx] does, field by field. *)
Lemma i2cn_rxdata_sm_data_rx (p : I2C_TypeDef) (s : system) :
  let d := slot p s in
  let n := wrap32 (num_bytes d - 1) in
  let v := Z.lor (mem s (data d))
                 (shl32 (RXDATA (regs (rxdata d) s)) (wrap32 (MSBYTE_SHIFT * n))) in
  curr_state d = data_rx ->
  exists s',
    i2cn_rxdata_sm p s = (Ok tt, s') /\
    slot p s' = (if n >? 0 then set_num_bytes n d
                 else set_curr_state m_stop (set_num_bytes n d)) /\
    (forall q, regs q s' = regs q s) /\
    (forall q, q <> p -> slot q s' = slot q s) /\
    (forall a, mem s' a = if a =? data d then v else mem s a) /\
    primask s' = primask s /\
    trace s' =
      trace s ++
      EnterCritical ::
      (if n >? 0 then [WrCMD (I2Cn d) I2C_CMD_ACK]
       else [WrCMD (I2Cn d) I2C_CMD_NACK; WrCMD (I2Cn d) I2C_CMD_STOP]) ++
      [TimerDelay; ExitCritical].
Proof.
  cbv zeta. intros H. split_system s p; exec; subst;
    match goal with
    | |- context [?n >? 0] => destruct (n >? 0)
    end;
    eexists; (split; [reflexivity|]); exec;
    repeat split; try reflexivity;
    try (intros q; destruct q; (reflexivity || congruence));
    rewrite <- ?app_assoc; reflexivity.
Qed.

Lemma wrap32_small (x : Z) : 0 <= x < 2 ^ 32 -> wrap32 x = x.
Proof. intros H. unfold wrap32. apply Z.mod_small. exact H. Qed.

(** For a payload of at most four bytes the shift of the handler is the
    mathematical one: no bit leaves the 32-bit word. *)
Lemma shl32_byte (b j : Z) :
  0 <= b < 256 -> 0 <= j <= 3 ->
  shl32 b (wrap32 (MSBYTE_SHIFT * wrap32 j)) = Z.shiftl b (8 * j).
Proof.
  intros Hb Hj.
  assert (Hs : wrap32 (MSBYTE_SHIFT * wrap32 j) = 8 * j).
  { unfold MSBYTE_SHIFT. rewrite (wrap32_small j) by lia.
    apply wrap32_small. lia. }
  unfold shl32. rewrite Hs.
  destruct (Z.ltb_spec (8 * j) 32); [|lia].
  rewrite Z.shiftl_mul_pow2 by lia. apply wrap32_small.
  assert (j = 0 \/ j = 1 \/ j = 2 \/ j = 3) as [-> | [-> | [-> | ->]]] by lia;
    cbn; lia.
Qed.

Lemma byte_high_bits (b i : Z) : 0 <= b < 256 -> 8 <= i -> Z.testbit b i = false.
Proof.
  intros Hb Hi. rewrite <- (Z.mod_small b (2 ^ 8)) by lia.
  apply Z.mod_pow2_bits_high. lia.
Qed.

(** The bits of a word after a byte has been or'ed in at a bit position. *)
Lemma lor_byte_bits (old b pos i : Z) :
  0 <= b < 256 -> 0 <= pos -> 0 <= i ->
  Z.testbit (Z.lor old (Z.shiftl b pos)) i =
  Z.testbit old i ||
  (if (pos <=? i) && (i <? pos + 8) then Z.testbit b (i - pos) else false).
Proof.
  intros Hb Hpos Hi.
  rewrite Z.lor_spec, Z.shiftl_spec by lia. f_equal.
  destruct (Z.leb_spec pos i); cbn [andb].
  - destruct (Z.ltb_spec i (pos + 8)); [reflexivity|].
    apply byte_high_bits; lia.
  - apply Z.testbit_neg_r. lia.
Qed.

Lemma lane_bits (x pos i : Z) :
  0 <= pos -> 0 <= i ->
  Z.testbit (Z.shiftr x pos mod 256) i =
  if i <? 8 then Z.testbit x (i + pos) else false.
Proof.
  intros Hpos Hi. change 256 with (2 ^ 8).
  destruct (Z.ltb_spec i 8).
  - rewrite Z.mod_pow2_bits_low by lia. apply Z.shiftr_spec. lia.
  - apply Z.mod_pow2_bits_high. lia.
Qed.

(** A byte or'ed into an empty lane is read back from that lane. *)
Lemma lor_byte_lane (old b pos : Z) :
  0 <= b < 256 -> 0 <= pos ->
  Z.shiftr old pos mod 256 = 0 ->
  Z.shiftr (Z.lor old (Z.shiftl b pos)) pos mod 256 = b.
Proof.
  intros Hb Hpos Hlane. apply Z.bits_inj'. intros i Hi.
  rewrite lane_bits by lia.
  destruct (Z.ltb_spec i 8).
  - rewrite lor_byte_bits by lia.
    assert (Z.testbit old (i + pos) = false) as ->.
    { pose proof (lane_bits old pos i Hpos Hi) as Hl.
      rewrite Hlane, Z.bits_0 in Hl.
      destruct (Z.ltb_spec i 8); [symmetry; exact Hl | lia]. }
    destruct (Z.leb_spec pos (i + pos)); [|lia].
    destruct (Z.ltb_spec (i + pos) (pos + 8)); [|lia].
    cbn. f_equal. lia.
  - symmetry. apply byte_high_bits; lia.
Qed.

(** C4. A byte received in [data_rx] while [num_bytes] is [k] (1 to 4, the
    widths that fit the 32-bit destination word) is or'ed into the
    destination word at bit position [(k-1)*8] from the low end: the eight
    bits from that position on receive the bits of the byte, every other
    bit keeps its value, and a lane that was empty holds exactly the byte
    afterwards.  The first byte of an N-byte payload therefore lands in the
    most significant of the N lanes. *)
Theorem rx_byte_lands_at_remaining_count
        (p : I2C_TypeDef) (s : system) (k : Z) :
  let d := slot p s in
  let b := RXDATA (regs (rxdata d) s) in
  let pos := (k - 1) * 8 in
  curr_state d = data_rx ->
  num_bytes d = k ->
  1 <= k <= 4 ->
  0 <= b < 256 ->
  exists s',
    i2cn_rxdata_sm p s = (Ok tt, s') /\
    num_bytes (slot p s') = k - 1 /\
    mem s' (data d) = Z.lor (mem s (data d)) (Z.shiftl b pos) /\
    (forall a, a <> data d -> mem s' a = mem s a) /\
    (forall i, 0 <= i ->
       Z.testbit (mem s' (data d)) i =
       Z.testbit (mem s (data d)) i ||
       (if (pos <=? i) && (i <? pos + 8) then Z.testbit b (i - pos) else false)) /\
    (Z.shiftr (mem s (data d)) pos mod 256 = 0 ->
     Z.shiftr (mem s' (data d)) pos mod 256 = b).
Proof.
  cbv zeta. intros Hst Hk Hrange Hb.
  destruct (i2cn_rxdata_sm_data_rx p s Hst)
    as (s' & Hrun & Hslot & _ & _ & Hmem & _ & _).
  rewrite Hk in Hslot, Hmem.
  rewrite (wrap32_small (k - 1)) in Hslot by lia.
  rewrite shl32_byte in Hmem by lia.
  replace (8 * (k - 1)) with ((k - 1) * 8) in Hmem by lia.
  assert (Hnew : mem s' (data (slot p s)) =
                 Z.lor (mem s (data (slot p s)))
                       (Z.shiftl (RXDATA (regs (rxdata (slot p s)) s)) ((k - 1) * 8))).
  { rewrite Hmem, Z.eqb_refl. reflexivity. }
  exists s'. split; [exact Hrun|]. split.
  { rewrite Hslot. destruct (k - 1 >? 0); reflexivity. }
  split; [exact Hnew|]. split.
  { intros a Ha. rewrite Hmem. destruct (Z.eqb_spec a (data (slot p s))); congruence. }
  split.
  - intros i Hi. rewrite Hnew. apply lor_byte_bits; lia.
  - intros Hlane. rewrite Hnew. apply lor_byte_lane; lia.
Qed.

Lemma rx_byte_lands_at_remaining_count_witness :
  i2cn_rxdata_sm I2C0 receiving_sys =
    (Ok tt, snd (i2cn_rxdata_sm I2C0 receiving_sys)) /\
  mem (snd (i2cn_rxdata_sm I2C0 receiving_sys)) 0x20000000 = 0xAB00.
Proof.
  destruct (rx_byte_lands_at_remaining_count I2C0 receiving_sys 2)
    as (s' & Hrun & _ & Hmem & _).
  - vm_compute. reflexivity.
  - vm_compute. reflexivity.
  - lia.
  - cbn. lia.
  - rewrite Hrun. split; [reflexivity|]. exact Hmem.
Defined.

(** The receive register and the destination are 32-bit words: whatever
    32-bit value [w] a shift of the received byte gives, the destination
    has no bit at position 32 or above, so for [num_bytes] of 5 or more
    the eight bits from position [(k-1)*8] on are zero. *)
Lemma no_lane_above_a_32_bit_word (old w k : Z) :
  0 <= old < 2 ^ 32 ->
  0 <= w < 2 ^ 32 ->
  5 <= k ->
  0 <= Z.lor old w < 2 ^ 32 /\
  Z.shiftr (Z.lor old w) ((k - 1) * 8) mod 256 = 0.
Proof.
  intros Ho Hw Hk.
  assert (Hnn : 0 <= Z.lor old w) by (apply Z.lor_nonneg; lia).
  assert (Hlt : Z.lor old w < 2 ^ 32).
  { destruct (Z.eq_dec (Z.lor old w) 0) as [E|E]; [rewrite E; lia|].
    apply Z.log2_lt_pow2; [lia|].
    rewrite Z.log2_lor by lia.
    apply Z.max_lub_lt.
    - destruct (Z.eq_dec old 0) as [E0|E0]; [rewrite E0; cbn; lia|].
      apply Z.log2_lt_pow2; lia.
    - destruct (Z.eq_dec w 0) as [E0|E0]; [rewrite E0; cbn; lia|].
      apply Z.log2_lt_pow2; lia. }
  split; [lia|].
  rewrite Z.shiftr_div_pow2 by lia.
  rewrite Z.div_small; [reflexivity|].
  split; [lia|].
  apply Z.lt_le_trans with (2 ^ 32); [exact Hlt|].
  apply Z.pow_le_mono_r; lia.
Qed.

(** C4, counterexample to the property as the specification states it,
    for every [k >= 1].  A read of five bytes is started and
    acknowledged three times, so that the descriptor is in [data_rx] with
    [num_bytes = 5].  The next byte-received event, with 0xAB in the
    receive register, returns and leaves [num_bytes = 4], but the byte is
    not at bit position [(5-1)*8 = 32] of the destination: the
    destination is still a 32-bit value and its eight bits from position
    32 on are zero. *)
Lemma fifth_byte_misses_the_destination :
  let s := snd (run (to_data_rx 5) sys0) in
  let out := step (IrqRx I2C0 0xAB) s in
  let dst := mem (snd out) (data (slot I2C0 s)) in
  fst (run (to_data_rx 5) sys0) = Ok tt /\
  curr_state (slot I2C0 s) = data_rx /\
  num_bytes (slot I2C0 s) = 5 /\
  fst out = Ok tt /\
  num_bytes (slot I2C0 (snd out)) = 4 /\
  0 <= dst < 2 ^ 32 /\
  Z.shiftr dst ((5 - 1) * 8) mod 256 = 0.
Proof.
  cbv zeta. repeat split; try (vm_compute; reflexivity).
  - vm_compute. discriminate.
Qed.

(* ------------------------------------------------------------------ *)
(** ** The initiator in closed form                                    *)
(* ------------------------------------------------------------------ *)

Lemma slot_with_trace (p : I2C_TypeDef) (t : list effect) (s : system) :
  slot p (with_trace t s) = slot p s.
Proof. destruct p; reflexivity. Qed.

Lemma slot_with_regs (p q : I2C_TypeDef) (r : I2C_regs) (s : system) :
  slot p (with_regs q r s) = slot p s.
Proof. destruct p, q; reflexivity. Qed.

Lemma with_trace_same (s : system) : with_trace (trace s) s = s.
Proof. destruct s; reflexivity. Qed.

(** The busy-wait on a static descriptor: nothing in the loop writes the
    descriptor, so a loop entered with [busy] set sees it set at every
    test and never leaves, whatever the number of tests. *)
Lemma spin_while_busy_run (fuel : nat) (p : I2C_TypeDef) (s : system) :
  spin_while_busy fuel p s =
  if busy (slot p s)
  then (Stalled, with_trace (trace s ++ repeat (PollBusy p true) fuel) s)
  else match fuel with
       | O => (Stalled, s)
       | S _ => (Ok tt, with_trace (trace s ++ [PollBusy p false]) s)
       end.
Proof.
  revert s. induction fuel as [|fuel IH]; intros s.
  - cbn [spin_while_busy repeat]. rewrite app_nil_r, with_trace_same.
    destruct (busy (slot p s)); reflexivity.
  - cbn [spin_while_busy]. unfold bind at 1. unfold get_slot at 1.
    unfold bind at 1. unfold emit at 1.
    destruct (busy (slot p s)) eqn:Hb; [|reflexivity].
    rewrite IH, slot_with_trace, Hb.
    cbn [trace with_trace repeat]. rewrite <- app_assoc. reflexivity.
Qed.

Lemma i2c_init_sm_run (fuel : nat) (d : I2C_SM_STRUCT) (s : system) :
  i2c_init_sm fuel d s =
  let p := I2Cn d in
  let r := regs p s in
  let s1 := with_regs p (mkRegs I2C_IEN_MASK (STATE r) (RXDATA r) (IF_reads r))
                      (with_primask true s) in
  let t1 := trace s ++ [SleepBlock; EnterCritical; WrIEN p I2C_IEN_MASK] in
  if busy (slot p s)
  then (Stalled, with_trace (t1 ++ repeat (PollBusy p true) fuel) s1)
  else
    match fuel with
    | O => (Stalled, with_trace t1 s1)
    | S _ =>
        if Z.land (STATE r) _I2C_STATE_STATE_MASK =? I2C_STATE_STATE_IDLE
        then (Ok tt,
              with_primask (primask s)
                (with_trace
                   (t1 ++ [PollBusy p false; WrSlot p; NvicEnable p;
                           TimerDelay; ExitCritical])
                   (with_slot p (set_busy I2C_BUS_BUSY d) s1)))
        else (AssertFailed, with_trace (t1 ++ [PollBusy p false]) s1)
    end.
Proof.
  destruct d as [q c b a tx rx da n cb].
  destruct s as [[ien0 st0 rx0 rd0] [ien1 st1 rx1 rd1] d0 d1 m pm t].
  destruct q; exec; rewrite spin_while_busy_run; exec.
  - destruct d0 as [? ? [|] ? ? ? ? ? ?]; exec.
    + rewrite <- !app_assoc. reflexivity.
    + destruct fuel; exec; [rewrite <- !app_assoc; reflexivity|].
      destruct (Z.land st0 _I2C_STATE_STATE_MASK =? I2C_STATE_STATE_IDLE);
        rewrite <- !app_assoc; reflexivity.
  - destruct d1 as [? ? [|] ? ? ? ? ? ?]; exec.
    + rewrite <- !app_assoc. reflexivity.
    + destruct fuel; exec; [rewrite <- !app_assoc; reflexivity|].
      destruct (Z.land st1 _I2C_STATE_STATE_MASK =? I2C_STATE_STATE_IDLE);
        rewrite <- !app_assoc; reflexivity.
Qed.

(* ------------------------------------------------------------------ *)
(** ** Receiving a payload                                             *)
(* ------------------------------------------------------------------ *)

(** One received byte, delivered by the hardware of [p] and handled on the
    static descriptor of [p]. *)
Lemma step_rx_data_rx (p : I2C_TypeDef) (byte : Z) (s : system) :
  let d := slot p s in
  let n := wrap32 (num_bytes d - 1) in
  curr_state d = data_rx ->
  exists s',
    step (IrqRx p byte) s = (Ok tt, s') /\
    slot p s' = (if n >? 0 then set_num_bytes n d
                 else set_curr_state m_stop (set_num_bytes n d)) /\
    (rxdata d = p ->
     forall a, mem s' a =
               if a =? data d
               then Z.lor (mem s a) (shl32 byte (wrap32 (MSBYTE_SHIFT * n)))
               else mem s a) /\
    trace s' = trace s ++ rx_effects (I2Cn d) n.
Proof.
  cbv zeta. intros Hst.
  set (r := regs p s).
  set (s1 := with_regs p (mkRegs (IEN r) (STATE r) byte (IF_reads r)) s).
  assert (Hstep : step (IrqRx p byte) s = i2cn_rxdata_sm p s1) by reflexivity.
  assert (Hslot1 : slot p s1 = slot p s) by apply slot_with_regs.
  destruct (i2cn_rxdata_sm_data_rx p s1) as (s' & Hrun & Hslot & _ & _ & Hmem & _ & Htr).
  { rewrite Hslot1. exact Hst. }
  rewrite Hslot1 in Hslot, Hmem, Htr.
  exists s'. split; [congruence|]. split; [exact Hslot|]. split.
  - intros Hrx a. rewrite Hmem, Hrx. unfold s1.
    rewrite regs_with_regs_same. cbn [RXDATA].
    destruct (Z.eqb_spec a (data (slot p s))) as [->|]; destruct p; reflexivity.
  - rewrite Htr. unfold s1. rewrite trace_with_regs. reflexivity.
Qed.

Lemma countdown_bounds (k : nat) :
  Forall (fun x => 0 <= x < Z.of_nat k) (countdown k).
Proof.
  induction k as [|k IH]; cbn [countdown]; constructor; [lia|].
  eapply Forall_impl; [|exact IH]. cbv beta. intros x Hx. lia.
Qed.

Lemma countdown_decreasing (k : nat) :
  StronglySorted Z.gt (Z.of_nat k :: countdown k).
Proof.
  induction k as [|k IH].
  - repeat constructor.
  - cbn [countdown]. constructor; [exact IH|].
    constructor; [lia|].
    eapply Forall_impl; [|exact (countdown_bounds k)].
    cbv beta. intros x Hx. lia.
Qed.

Lemma countdown_zero_once (k : nat) :
  (1 <= k)%nat -> count_occ Z.eq_dec (countdown k) 0 = 1%nat.
Proof.
  induction k as [|k IH]; [lia|]. intros _. cbn [countdown count_occ].
  destruct k as [|k].
  - reflexivity.
  - destruct (Z.eq_dec (Z.of_nat (S k)) 0); [lia|]. apply IH. lia.
Qed.

Lemma rx_run_counts_down (p : I2C_TypeDef) (bytes : list Z) :
  forall s : system,
    bytes <> [] ->
    curr_state (slot p s) = data_rx ->
    num_bytes (slot p s) = Z.of_nat (length bytes) ->
    Z.of_nat (length bytes) < 2 ^ 32 ->
    exists s',
      run (map (IrqRx p) bytes) s = (Ok tt, s') /\
      num_bytes_history p (map (IrqRx p) bytes) s = countdown (length bytes) /\
      slot p s' = set_curr_state m_stop (set_num_bytes 0 (slot p s)) /\
      trace s' =
        trace s ++
        concat (map (rx_effects (I2Cn (slot p s))) (countdown (length bytes))).
Proof.
  induction bytes as [|b rest IH]; intros s Hne Hst Hk Hlt; [congruence|].
  destruct (step_rx_data_rx p b s Hst) as (s1 & Hstep & Hslot & _ & Htr).
  cbn [length] in *. rewrite Hk in Hslot, Htr.
  replace (Z.of_nat (S (length rest)) - 1) with (Z.of_nat (length rest))
    in Hslot, Htr by lia.
  rewrite wrap32_small in Hslot, Htr by lia.
  cbn [map run num_bytes_history countdown concat].
  unfold bind at 1. rewrite Hstep. cbn [snd].
  destruct rest as [|b' rest'].
  - cbn [length Z.of_nat Z.gtb Z.compare] in Hslot.
    exists s1. cbn [map run num_bytes_history length countdown concat].
    split; [reflexivity|]. split; [rewrite Hslot; reflexivity|].
    split; [exact Hslot|]. rewrite Htr, app_nil_r. reflexivity.
  - assert (Hpos : (Z.of_nat (length (b' :: rest')) >? 0) = true).
    { cbn [length]. apply Z.gtb_lt. lia. }
    rewrite Hpos in Hslot.
    destruct (IH s1) as (s' & Hrun & Hhist & Hfin & Htr').
    + discriminate.
    + rewrite Hslot. exact Hst.
    + rewrite Hslot. reflexivity.
    + lia.
    + exists s'. split; [exact Hrun|]. split.
      { rewrite Hhist, Hslot. reflexivity. }
      split.
      { rewrite Hfin, Hslot. reflexivity. }
      rewrite Htr', Htr, Hslot, <- app_assoc. reflexivity.
Qed.

(** Outside [data_rx] the byte-received handler only passes through its
    critical section. *)
Lemma i2cn_rxdata_sm_noop (p : I2C_TypeDef) (s : system) :
  curr_state (slot p s) <> data_rx ->
  i2cn_rxdata_sm p s =
  (Ok tt, with_trace (trace s ++ [EnterCritical; TimerDelay; ExitCritical]) s).
Proof.
  intros H. split_system s p; exec;
    match type of H with
    | ?c <> data_rx => destruct c; try congruence
    end;
    rewrite <- ?app_assoc; reflexivity.
Qed.

Lemma rx_effects_countdown (q : I2C_TypeDef) (n : nat) :
  concat (map (rx_effects q) (countdown (S n))) =
  concat (repeat (ack_block q) n) ++ nack_stop_block q.
Proof.
  induction n as [|n IH].
  - reflexivity.
  - change (countdown (S (S n))) with (Z.of_nat (S n) :: countdown (S n)).
    cbn [map concat repeat]. rewrite IH.
    assert (Hpos : (Z.of_nat (S n) >? 0) = true) by (apply Z.gtb_lt; lia).
    unfold rx_effects at 1. rewrite Hpos.
    rewrite <- app_assoc. reflexivity.
Qed.

(** C5 (amended). Over a transaction that enters [data_rx] with
    [num_bytes = k >= 1], the [k] byte-received events take [num_bytes]
    through [k-1, k-2, ..., 0]: strictly decreasing, never negative, zero
    exactly once, at the last event.  The first [k-1] events each issue
    ACK; the event that reaches zero issues NACK and then STOP and moves
    the descriptor to [m_stop]; a byte-received event after that changes
    neither [num_bytes] nor the state and issues no command. *)
Theorem num_bytes_counts_down_to_nack_stop
        (p : I2C_TypeDef) (bytes : list Z) (s : system) :
  let d := slot p s in
  let k := length bytes in
  let h := num_bytes_history p (map (IrqRx p) bytes) s in
  curr_state d = data_rx ->
  num_bytes d = Z.of_nat k ->
  (1 <= k)%nat ->
  Z.of_nat k < 2 ^ 32 ->
  exists s',
    run (map (IrqRx p) bytes) s = (Ok tt, s') /\
    h = countdown k /\
    StronglySorted Z.gt (num_bytes d :: h) /\
    Forall (fun x => 0 <= x) h /\
    count_occ Z.eq_dec h 0 = 1%nat /\
    last h 1 = 0 /\
    curr_state (slot p s') = m_stop /\
    num_bytes (slot p s') = 0 /\
    trace s' =
      trace s ++ concat (repeat (ack_block (I2Cn d)) (k - 1)) ++
      nack_stop_block (I2Cn d) /\
    (forall byte,
        exists s'',
          step (IrqRx p byte) s' = (Ok tt, s'') /\
          slot p s'' = slot p s' /\
          trace s'' = trace s' ++ [EnterCritical; TimerDelay; ExitCritical]).
Proof.
  cbv zeta. intros Hst Hk Hk1 Hlt.
  destruct (rx_run_counts_down p bytes s) as (s' & Hrun & Hh & Hfin & Htr);
    try assumption.
  { destruct bytes; [cbn in Hk1; lia | discriminate]. }
  exists s'. rewrite Hh, Hk.
  split; [exact Hrun|]. split; [reflexivity|].
  split; [apply countdown_decreasing|].
  split.
  { eapply Forall_impl; [|exact (countdown_bounds (length bytes))].
    cbv beta. intros x Hx. lia. }
  split; [apply countdown_zero_once; exact Hk1|].
  split.
  { destruct (length bytes) as [|n]; [lia|]. clear.
    induction n as [|n IH]; [reflexivity|].
    change (countdown (S (S n))) with (Z.of_nat (S n) :: countdown (S n)).
    change (countdown (S n)) with (Z.of_nat n :: countdown n) in *.
    exact IH. }
  split; [rewrite Hfin; reflexivity|].
  split; [rewrite Hfin; reflexivity|].
  split.
  { rewrite Htr. destruct (length bytes) as [|n]; [lia|].
    rewrite rx_effects_countdown.
    replace (S n - 1)%nat with n by lia. reflexivity. }
  intros byte.
  set (r := regs p s').
  set (s1 := with_regs p (mkRegs (IEN r) (STATE r) byte (IF_reads r)) s').
  assert (Hstep : step (IrqRx p byte) s' = i2cn_rxdata_sm p s1) by reflexivity.
  assert (Hslot1 : slot p s1 = slot p s') by apply slot_with_regs.
  rewrite Hstep, i2cn_rxdata_sm_noop by (rewrite Hslot1, Hfin; discriminate).
  eexists. split; [reflexivity|].
  rewrite slot_with_trace, Hslot1. split; [reflexivity|].
  unfold s1. cbn [trace with_trace]. rewrite trace_with_regs. reflexivity.
Qed.

Lemma num_bytes_counts_down_to_nack_stop_witness :
  exists s',
    run [IrqRx I2C0 0xAB; IrqRx I2C0 0x12] receiving_sys = (Ok tt, s') /\
    num_bytes_history I2C0 [IrqRx I2C0 0xAB; IrqRx I2C0 0x12] receiving_sys
    = [1; 0].
Proof.
  destruct (num_bytes_counts_down_to_nack_stop I2C0 [0xAB; 0x12] receiving_sys)
    as (s' & Hrun & Hh & _).
  - vm_compute. reflexivity.
  - vm_compute. reflexivity.
  - cbn. lia.
  - vm_compute. reflexivity.
  - exists s'. split; [exact Hrun | exact Hh].
Defined.

(** C5, counterexample to the property as the specification states it. A read of zero bytes is
    started and acknowledged three times, so that the descriptor is in
    [data_rx] with [num_bytes = 0].  The next byte-received event wraps
    the unsigned counter to 4294967295: it is not decreased, zero is left
    rather than reached, ACK is issued and the state stays [data_rx]. *)
Lemma zero_byte_read_wraps_num_bytes :
  let acts := [Begin 1 (read_request 0);
               TxStart (read_request 0) SI7021_I2C_WRITE;
               IrqAck I2C0; IrqAck I2C0; IrqAck I2C0] in
  let s := snd (run acts sys0) in
  let s' := snd (step (IrqRx I2C0 0xAB) s) in
  fst (run acts sys0) = Ok tt /\
  curr_state (slot I2C0 s) = data_rx /\
  num_bytes (slot I2C0 s) = 0 /\
  fst (step (IrqRx I2C0 0xAB) s) = Ok tt /\
  num_bytes (slot I2C0 s') = 4294967295 /\
  ~ num_bytes (slot I2C0 s') < num_bytes (slot I2C0 s) /\
  curr_state (slot I2C0 s') = data_rx /\
  trace s' = trace s ++ ack_block I2C0.
Proof.
  cbv zeta. repeat split; try (vm_compute; reflexivity).
  intros H. vm_compute in H. discriminate H.
Qed.

(* ------------------------------------------------------------------ *)
(** ** The destination word                                            *)
(* ------------------------------------------------------------------ *)

Lemma fold_msb_first_acc (bytes : list Z) (acc : Z) :
  fold_left (fun acc b => 256 * acc + b) bytes acc =
  acc * 2 ^ (8 * Z.of_nat (length bytes)) + payload_msb_first bytes.
Proof.
  unfold payload_msb_first. revert acc.
  induction bytes as [|b rest IH]; intros acc.
  - cbn. lia.
  - cbn [fold_left length]. rewrite IH, (IH (256 * 0 + b)).
    replace (8 * Z.of_nat (S (length rest)))
      with (8 + 8 * Z.of_nat (length rest)) by lia.
    rewrite Z.pow_add_r by lia. change (2 ^ 8) with 256. ring.
Qed.

Lemma payload_msb_first_bound (bytes : list Z) :
  Forall (fun b => 0 <= b < 256) bytes ->
  0 <= payload_msb_first bytes < 2 ^ (8 * Z.of_nat (length bytes)).
Proof.
  induction 1 as [|b rest Hb _ IH].
  - cbn. lia.
  - unfold payload_msb_first. cbn [fold_left length].
    rewrite fold_msb_first_acc.
    replace (8 * Z.of_nat (S (length rest)))
      with (8 + 8 * Z.of_nat (length rest)) by lia.
    rewrite Z.pow_add_r by lia. change (2 ^ 8) with 256.
    assert (0 < 2 ^ (8 * Z.of_nat (length rest))) by (apply Z.pow_pos_nonneg; lia).
    nia.
Qed.

(** Or-ing a value below [2^n] under a value shifted left by [n] adds them:
    the two have no bit in common. *)
Lemma lor_shiftl_low (hi lo n : Z) :
  0 <= n -> 0 <= lo < 2 ^ n ->
  Z.lor (Z.shiftl hi n) lo = hi * 2 ^ n + lo.
Proof.
  intros Hn Hlo.
  rewrite <- Z.shiftl_mul_pow2 by lia.
  assert (Hdisj : Z.land (Z.shiftl hi n) lo = 0).
  { apply Z.bits_inj'. intros i Hi.
    rewrite Z.land_spec, Z.bits_0.
    destruct (Z.lt_ge_cases i n).
    - rewrite Z.shiftl_spec_low by lia. reflexivity.
    - rewrite <- (Z.mod_small lo (2 ^ n)) by lia.
      rewrite Z.mod_pow2_bits_high by lia. apply andb_false_r. }
  rewrite Z.add_nocarry_lxor by exact Hdisj.
  symmetry. apply Z.lxor_lor. exact Hdisj.
Qed.

Lemma payload_msb_first_cons (b : Z) (rest : list Z) :
  Forall (fun b => 0 <= b < 256) rest ->
  Z.lor (Z.shiftl b (8 * Z.of_nat (length rest))) (payload_msb_first rest) =
  payload_msb_first (b :: rest).
Proof.
  intros Hrest.
  rewrite lor_shiftl_low by (try apply payload_msb_first_bound; (lia || assumption)).
  unfold payload_msb_first at 2. cbn [fold_left].
  rewrite fold_msb_first_acc. ring.
Qed.

Lemma rx_run_accumulates (p : I2C_TypeDef) (bytes : list Z) :
  forall s : system,
    bytes <> [] ->
    curr_state (slot p s) = data_rx ->
    rxdata (slot p s) = p ->
    num_bytes (slot p s) = Z.of_nat (length bytes) ->
    (length bytes <= 4)%nat ->
    Forall (fun b => 0 <= b < 256) bytes ->
    exists s',
      run (map (IrqRx p) bytes) s = (Ok tt, s') /\
      forall a,
        mem s' a =
        if a =? data (slot p s)
        then Z.lor (mem s a) (payload_msb_first bytes)
        else mem s a.
Proof.
  induction bytes as [|b rest IH]; intros s Hne Hst Hrx Hk Hlen Hbytes;
    [congruence|].
  inversion Hbytes as [|? ? Hb Hrest]; subst.
  destruct (step_rx_data_rx p b s Hst) as (s1 & Hstep & Hslot & Hmem & _).
  specialize (Hmem Hrx).
  cbn [length] in *. rewrite Hk in Hslot, Hmem.
  replace (Z.of_nat (S (length rest)) - 1) with (Z.of_nat (length rest))
    in Hslot, Hmem by lia.
  assert (Hsh : shl32 b (wrap32 (MSBYTE_SHIFT * wrap32 (Z.of_nat (length rest))))
                = Z.shiftl b (8 * Z.of_nat (length rest)))
    by (apply shl32_byte; lia).
  rewrite Hsh in Hmem. rewrite wrap32_small in Hslot by lia.
  cbn [map run]. unfold bind at 1. rewrite Hstep.
  destruct rest as [|b' rest'].
  - exists s1. split; [reflexivity|]. intros a. rewrite Hmem.
    destruct (a =? data (slot p s)); reflexivity.
  - assert (Hpos : (Z.of_nat (length (b' :: rest')) >? 0) = true).
    { cbn [length]. apply Z.gtb_lt. lia. }
    rewrite Hpos in Hslot.
    destruct (IH s1) as (s' & Hrun & Hfin).
    + discriminate.
    + rewrite Hslot. exact Hst.
    + rewrite Hslot. exact Hrx.
    + rewrite Hslot. reflexivity.
    + cbn [length] in *. lia.
    + exact Hrest.
    + exists s'. split; [exact Hrun|]. intros a.
      rewrite Hfin, Hslot. cbn [data set_num_bytes]. rewrite Hmem.
      destruct (a =? data (slot p s)); [|reflexivity].
      rewrite <- Z.lor_assoc. f_equal.
      apply payload_msb_first_cons. exact Hrest.
Qed.

Ltac case_stuck :=
  repeat match goal with
         | |- context [match ?x with _ => _ end] => is_var x; destruct x; exec
         | |- context [poll_mstop ?r] => destruct (poll_mstop r); exec
         | |- context [?a =? ?b] => destruct (a =? b); exec
         | |- context [?a >? ?b] => destruct (a >? b); exec
         end.

(** No entry point of the engine assigns or clears memory: every word of
    memory after an action is the word before, or'ed with some value. *)
Lemma step_only_ors_memory (a : action) (s : system) (x : Z) :
  exists v, mem (snd (step a s)) x = Z.lor (mem s x) v.
Proof.
  destruct a as [fuel d | d rw | p | p | p byte | p].
  - exists 0. rewrite Z.lor_0_r. cbn [step]. rewrite i2c_init_sm_run.
    cbv zeta. destruct (busy (slot (I2Cn d) s)); [destruct (I2Cn d); reflexivity|].
    destruct fuel; [destruct (I2Cn d); reflexivity|].
    destruct (_ =? _); destruct (I2Cn d); reflexivity.
  - exists 0. rewrite Z.lor_0_r. reflexivity.
  - exists 0. rewrite Z.lor_0_r. split_system s p; exec; case_stuck; reflexivity.
  - exists 0. rewrite Z.lor_0_r. split_system s p; exec; case_stuck; reflexivity.
  - split_system s p; exec;
      match goal with
      | |- context [match ?c with req_res => _ | _ => _ end] => destruct c
      end; exec;
      try (exists 0; rewrite Z.lor_0_r; reflexivity);
      match goal with
      | |- context [?n >? 0] => destruct (n >? 0)
      end; exec;
      match goal with
      | |- context [x =? ?a] => destruct (Z.eqb_spec x a) as [->|]
      end;
      solve [eexists; reflexivity | exists 0; rewrite Z.lor_0_r; reflexivity].
  - exists 0. rewrite Z.lor_0_r. split_system s p; exec; case_stuck; reflexivity.
Qed.

Lemma run_keeps_set_bits (acts : list action) :
  forall (s : system) (x i : Z),
    Z.testbit (mem s x) i = true ->
    Z.testbit (mem (snd (run acts s)) x) i = true.
Proof.
  induction acts as [|a rest IH]; intros s x i Hbit; [exact Hbit|].
  cbn [run]. unfold bind.
  destruct (step_only_ors_memory a s x) as (v & Hv).
  destruct (step a s) as [[[]| |] s1] eqn:Hstep; cbn [snd] in *.
  - apply IH. rewrite Hv, Z.lor_spec, Hbit. reflexivity.
  - rewrite Hv, Z.lor_spec, Hbit. reflexivity.
  - rewrite Hv, Z.lor_spec, Hbit. reflexivity.
Qed.

(** C10. The received bytes reach the caller's destination word only
    through a bitwise or.  For a payload of one to four bytes received in
    [data_rx] with [num_bytes] equal to its length, the destination word
    ends as its contents at the start or'ed with the payload read most
    significant byte first; it equals the payload when the word was zero
    at the start, and in general exactly when every bit that was set in
    the word at the start is a bit of the payload; every other word of
    memory is unchanged; and no run of the engine, whatever its actions,
    ever resets a bit of memory that was set. *)
Theorem destination_is_or_accumulated
        (p : I2C_TypeDef) (bytes : list Z) (s : system) :
  let d := slot p s in
  curr_state d = data_rx ->
  rxdata d = p ->
  num_bytes d = Z.of_nat (length bytes) ->
  (1 <= length bytes <= 4)%nat ->
  Forall (fun b => 0 <= b < 256) bytes ->
  exists s',
    run (map (IrqRx p) bytes) s = (Ok tt, s') /\
    mem s' (data d) = Z.lor (mem s (data d)) (payload_msb_first bytes) /\
    (mem s (data d) = 0 -> mem s' (data d) = payload_msb_first bytes) /\
    (mem s' (data d) = payload_msb_first bytes <->
     forall i, 0 <= i ->
               Z.testbit (mem s (data d)) i = true ->
               Z.testbit (payload_msb_first bytes) i = true) /\
    (forall a, a <> data d -> mem s' a = mem s a) /\
    (forall acts s0 x i,
        Z.testbit (mem s0 x) i = true ->
        Z.testbit (mem (snd (run acts s0)) x) i = true).
Proof.
  cbv zeta. intros Hst Hrx Hk Hlen Hbytes.
  destruct (rx_run_accumulates p bytes s) as (s' & Hrun & Hmem);
    try assumption; try lia.
  { destruct bytes; [cbn in Hlen; lia | discriminate]. }
  exists s'. split; [exact Hrun|].
  assert (Hdst : mem s' (data (slot p s)) =
                 Z.lor (mem s (data (slot p s))) (payload_msb_first bytes)).
  { rewrite Hmem, Z.eqb_refl. reflexivity. }
  split; [exact Hdst|]. split.
  { intros Hzero. rewrite Hdst, Hzero. apply Z.lor_0_l. }
  split.
  { rewrite Hdst. split.
    - intros Heq i Hi Hset. rewrite <- Heq, Z.lor_spec, Hset. reflexivity.
    - intros Hsub. apply Z.bits_inj'. intros i Hi. rewrite Z.lor_spec.
      destruct (Z.testbit (mem s (data (slot p s))) i) eqn:Hbit;
        [rewrite (Hsub i Hi Hbit)|]; reflexivity. }
  split.
  { intros a Ha. rewrite Hmem.
    destruct (Z.eqb_spec a (data (slot p s))); congruence. }
  intros acts s0 x i. apply run_keeps_set_bits.
Qed.

Lemma destination_is_or_accumulated_witness :
  exists s',
    run [IrqRx I2C0 0xAB; IrqRx I2C0 0x12] receiving_sys = (Ok tt, s') /\
    mem s' 0x20000000 = 0xAB12.
Proof.
  destruct (destination_is_or_accumulated I2C0 [0xAB; 0x12] receiving_sys)
    as (s' & Hrun & Hmem & _).
  - vm_compute. reflexivity.
  - vm_compute. reflexivity.
  - vm_compute. reflexivity.
  - cbn. lia.
  - repeat constructor; lia.
  - exists s'. split; [exact Hrun | exact Hmem].
Defined.

(** A destination word that is not zero when the transaction starts keeps
    its bits: the same two bytes received over a word holding 0xFFFF leave
    0xFFFF, not the payload 0xAB12. *)
Example stale_destination_is_not_overwritten :
  let stale := with_mem (fun _ => 0xFFFF) receiving_sys in
  mem (snd (run [IrqRx I2C0 0xAB; IrqRx I2C0 0x12] stale)) 0x20000000 = 0xFFFF /\
  payload_msb_first [0xAB; 0x12] = 0xAB12.
Proof. cbv zeta. split; vm_compute; reflexivity. Qed.

(** C10, counterexample to the property as stated, for every transaction
    and with zero-initialisation as the only way to the payload.  First,
    a destination word that holds 0x0002 when the two bytes 0xAB, 0x12
    arrive ends as 0xAB12, the payload alone, although it was not
    zero-initialised: its only set bit is a bit of the payload.  Second,
    a read of five bytes 1, 2, 3, 4, 5 into a zero-initialised
    destination returns, and the destination, a 32-bit word, ends below
    2^32: it is not the payload 0x0102030405 read most significant byte
    first. *)
Lemma payload_alone_needs_no_zero_initialisation :
  let stale := with_mem (fun _ => 0x0002) receiving_sys in
  let out := run [IrqRx I2C0 0xAB; IrqRx I2C0 0x12] stale in
  let s5 := snd (run (to_data_rx 5) sys0) in
  let out5 := run (map (IrqRx I2C0) [1; 2; 3; 4; 5]) s5 in
  (mem stale 0x20000000 = 0x0002 /\
   fst out = Ok tt /\
   mem (snd out) 0x20000000 = 0xAB12 /\
   payload_msb_first [0xAB; 0x12] = 0xAB12) /\
  (fst (run (to_data_rx 5) sys0) = Ok tt /\
   num_bytes (slot I2C0 s5) = 5 /\
   mem s5 0x20000000 = 0 /\
   fst out5 = Ok tt /\
   mem (snd out5) 0x20000000 < 2 ^ 32 /\
   payload_msb_first [1; 2; 3; 4; 5] = 0x0102030405 /\
   2 ^ 32 <= payload_msb_first [1; 2; 3; 4; 5]).
Proof.
  cbv zeta. repeat split; try (vm_compute; reflexivity).
  vm_compute. discriminate.
Qed.

(* ------------------------------------------------------------------ *)
(** ** Mutual exclusion on a peripheral                                *)
(* ------------------------------------------------------------------ *)

Lemma I2C_eqb_eq (a b : I2C_TypeDef) : I2C_eqb a b = true <-> a = b.
Proof. destruct a, b; cbn; split; congruence. Qed.

(** What a call of the initiator that returns has seen and done. *)
Lemma i2c_init_sm_returns (fuel : nat) (d : I2C_SM_STRUCT) (s s' : system) :
  i2c_init_sm fuel d s = (Ok tt, s') ->
  busy (slot (I2Cn d) s) = false /\
  slot (I2Cn d) s' = set_busy true d /\
  trace s' =
    trace s ++
    [SleepBlock; EnterCritical; WrIEN (I2Cn d) I2C_IEN_MASK;
     PollBusy (I2Cn d) false; WrSlot (I2Cn d); NvicEnable (I2Cn d);
     TimerDelay; ExitCritical].
Proof.
  rewrite i2c_init_sm_run. cbv zeta.
  destruct (busy (slot (I2Cn d) s)); [discriminate|].
  destruct fuel; [discriminate|].
  destruct (_ =? _); [|discriminate].
  intros H. injection H as <-. split; [reflexivity|].
  destruct (I2Cn d); split; cbn; rewrite <- ?app_assoc; reflexivity.
Qed.

Lemma i2c_init_sm_other_slot (fuel : nat) (d : I2C_SM_STRUCT) (s : system)
      (q : I2C_TypeDef) :
  q <> I2Cn d ->
  slot q (snd (i2c_init_sm fuel d s)) = slot q s.
Proof.
  intros Hq. rewrite i2c_init_sm_run. cbv zeta.
  destruct (busy (slot (I2Cn d) s)); [destruct (I2Cn d), q; reflexivity|].
  destruct fuel; [destruct (I2Cn d), q; reflexivity|].
  destruct (_ =? _); destruct (I2Cn d), q; reflexivity || congruence.
Qed.

(** Only the completion path clears [busy]; only the initiator sets it. *)
Lemma step_keeps_busy (a : action) (s : system) (q : I2C_TypeDef) :
  match a with
  | Begin _ d => q <> I2Cn d
  | IrqMstop p => q <> p
  | _ => True
  end ->
  busy (slot q (snd (step a s))) = busy (slot q s).
Proof.
  destruct a as [fuel d | d rw | p | p | p byte | p]; intros H.
  - cbn [step]. rewrite i2c_init_sm_other_slot by exact H. reflexivity.
  - destruct q; reflexivity.
  - split_system s p; destruct q; exec; case_stuck; reflexivity.
  - split_system s p; destruct q; exec; case_stuck; reflexivity.
  - split_system s p; destruct q; exec; case_stuck; reflexivity.
  - split_system s p; destruct q; try congruence; exec; case_stuck; reflexivity.
Qed.

Lemma i2c_bus_reset_slot (p q : I2C_TypeDef) (s : system) :
  slot q (snd (i2c_bus_reset p s)) = slot q s.
Proof.
  rewrite i2c_bus_reset_run. cbv zeta.
  destruct (IF_reads (regs p s)) as [|v rest]; [destruct p, q; reflexivity|].
  destruct (poll_mstop rest); destruct p, q; reflexivity.
Qed.

(** The stop-detected handler, with the bus reset it ends with kept as a
    call. *)
Lemma i2cn_mstop_sm_run (p : I2C_TypeDef) (s : system) :
  i2cn_mstop_sm p s =
  let d := slot p s in
  match curr_state d with
  | m_stop =>
      let s1 :=
        with_trace (trace s ++ [EnterCritical; SleepUnblock; Scheduled (i2c_cb d)])
                   (with_slot p (set_busy I2C_BUS_READY d) (with_primask true s)) in
      match i2c_bus_reset (I2Cn d) s1 with
      | (Ok _, s2) =>
          (Ok tt,
           with_primask (primask s)
             (with_trace (trace s2 ++ [TimerDelay; ExitCritical]) s2))
      | (AssertFailed, s2) => (AssertFailed, s2)
      | (Stalled, s2) => (Stalled, s2)
      end
  | _ =>
      (AssertFailed, with_trace (trace s ++ [EnterCritical]) (with_primask true s))
  end.
Proof.
  unfold i2cn_mstop_sm. split_system s p; exec_calls;
    match goal with
    | |- context [match ?c with req_res => _ | _ => _ end] => destruct c
    end; exec_calls; try reflexivity;
    rewrite <- !app_assoc; cbn [app];
    match goal with
    | |- context [i2c_bus_reset ?q ?x] => destruct (i2c_bus_reset q x) as [[[]| |] ?]
    end; rewrite <- ?app_assoc; reflexivity.
Qed.

(** The stop-detected handler returns only from [m_stop], and then it has
    cleared [busy]. *)
Lemma i2cn_mstop_sm_returns (p : I2C_TypeDef) (s s' : system) :
  i2cn_mstop_sm p s = (Ok tt, s') ->
  curr_state (slot p s) = m_stop /\ busy (slot p s') = false.
Proof.
  rewrite i2cn_mstop_sm_run. cbv zeta.
  destruct (curr_state (slot p s)); try discriminate.
  match goal with
  | |- context [i2c_bus_reset ?q ?x] =>
      pose proof (i2c_bus_reset_slot q p x) as Hslot;
      destruct (i2c_bus_reset q x) as [[[]| |] s2]
  end; intros H; try discriminate H.
  injection H as <-. split; [reflexivity|].
  cbn [snd] in Hslot.
  assert (Hs : forall b t x, slot p (with_primask b (with_trace t x)) = slot p x)
    by (intros; destruct p; reflexivity).
  rewrite Hs, Hslot. destruct p; reflexivity.
Qed.

Lemma run_cons_ok (a : action) (rest : list action) (s s' : system) :
  run (a :: rest) s = (Ok tt, s') ->
  exists s1, step a s = (Ok tt, s1) /\ run rest s1 = (Ok tt, s').
Proof.
  cbn [run]. unfold bind.
  destruct (step a s) as [[[]| |] s1]; intros H; try discriminate H.
  exists s1. split; [reflexivity | exact H].
Qed.

(** A descriptor that is busy and is found free later, with no transaction
    begun on it in between, has been released by a completion path. *)
Lemma busy_is_cleared_by_completion (p : I2C_TypeDef) (acts : list action) :
  forall s s',
    run acts s = (Ok tt, s') ->
    begins p acts = 0%nat ->
    busy (slot p s) = true ->
    busy (slot p s') = false ->
    exists pre post sm sm',
      acts = pre ++ IrqMstop p :: post /\
      run pre s = (Ok tt, sm) /\
      busy (slot p sm) = true /\
      curr_state (slot p sm) = m_stop /\
      i2cn_mstop_sm p sm = (Ok tt, sm') /\
      busy (slot p sm') = false /\
      run post sm' = (Ok tt, s').
Proof.
  induction acts as [|a rest IH]; intros s s' Hrun Hbeg Hbusy Hfree.
  - cbn in Hrun. injection Hrun as <-. congruence.
  - apply run_cons_ok in Hrun. destruct Hrun as (s1 & Hstep & Hrest).
    assert (Hcase :
              a = IrqMstop p \/
              (begins p rest = 0%nat /\
               busy (slot p (snd (step a s))) = busy (slot p s))).
    { destruct a as [fuel d | d rw | q | q | q byte | q];
        try (right; split; [exact Hbeg | apply step_keeps_busy; exact I]).
      - cbn [begins] in Hbeg.
        destruct (I2C_eqb (I2Cn d) p) eqn:He; [cbn in Hbeg; lia|].
        right. split; [exact Hbeg|]. apply step_keeps_busy.
        intros ->. rewrite (proj2 (I2C_eqb_eq _ _) eq_refl) in He. discriminate.
      - destruct (I2C_eqb q p) eqn:He.
        + left. apply I2C_eqb_eq in He. congruence.
        + right. split; [exact Hbeg|]. apply step_keeps_busy.
          intros ->. rewrite (proj2 (I2C_eqb_eq _ _) eq_refl) in He.
          discriminate. }
    destruct Hcase as [-> | [Hbeg' Hkeep]].
    + cbn [step] in Hstep.
      destruct (i2cn_mstop_sm_returns p s s1 Hstep) as [Hst Hclr].
      exists [], rest, s, s1. repeat split; try assumption; reflexivity.
    + rewrite Hstep in Hkeep. cbn [snd] in Hkeep.
      destruct (IH s1 s' Hrest Hbeg') as
          (pre & post & sm & sm' & -> & Hpre & Hb & Hst & Hm & Hc & Hpost);
        [congruence | exact Hfree |].
      exists (a :: pre), post, sm, sm'. repeat split; try assumption.
      cbn [run]. unfold bind. rewrite Hstep. exact Hpre.
Qed.

(** Transactions begun and not yet completed on a peripheral are accounted
    for by its [busy] flag, so there is never more than one. *)
Lemma live_transactions_bounded (p : I2C_TypeDef) (acts : list action) :
  forall s s',
    run acts s = (Ok tt, s') ->
    (begins p acts + b2n (busy (slot p s)) <=
     completions p acts + b2n (busy (slot p s')))%nat.
Proof.
  induction acts as [|a rest IH]; intros s s' Hrun.
  - cbn in Hrun. injection Hrun as <-. cbn. lia.
  - apply run_cons_ok in Hrun. destruct Hrun as (s1 & Hstep & Hrest).
    specialize (IH s1 s' Hrest).
    assert (Hstep1 :
              (begins p [a] + b2n (busy (slot p s)) <=
               completions p [a] + b2n (busy (slot p s1)))%nat).
    { destruct a as [fuel d | d rw | q | q | q byte | q];
        try (cbn [begins completions];
             match type of Hstep with
             | step ?a s = _ => pose proof (step_keeps_busy a s p I) as Hk
             end;
             rewrite Hstep in Hk; cbn [snd] in Hk; rewrite Hk; lia).
      - cbn [begins completions step] in *.
        destruct (I2C_eqb (I2Cn d) p) eqn:He.
        + apply I2C_eqb_eq in He. subst p.
          destruct (i2c_init_sm_returns _ _ _ _ Hstep) as (Hfree & Hslot & _).
          rewrite Hfree, Hslot. cbn. lia.
        + assert (Hne : p <> I2Cn d).
          { intros ->. rewrite (proj2 (I2C_eqb_eq _ _) eq_refl) in He.
            discriminate. }
          pose proof (step_keeps_busy (Begin fuel d) s p Hne) as Hk.
          cbn [step] in Hk. rewrite Hstep in Hk. cbn [snd] in Hk.
          rewrite Hk. lia.
      - cbn [begins completions step] in *.
        destruct (I2C_eqb q p) eqn:He.
        + apply I2C_eqb_eq in He. subst q.
          destruct (i2cn_mstop_sm_returns _ _ _ Hstep) as (_ & Hclr).
          rewrite Hclr. destruct (busy (slot p s)); cbn; lia.
        + assert (Hne : p <> q).
          { intros ->. rewrite (proj2 (I2C_eqb_eq _ _) eq_refl) in He.
            discriminate. }
          pose proof (step_keeps_busy (IrqMstop q) s p Hne) as Hk.
          cbn [step] in Hk. rewrite Hstep in Hk. cbn [snd] in Hk.
          rewrite Hk. lia. }
    assert (Hb : begins p (a :: rest) = (begins p [a] + begins p rest)%nat).
    { destruct a; cbn [begins]; lia. }
    assert (Hc : completions p (a :: rest) =
                 (completions p [a] + completions p rest)%nat).
    { destruct a; cbn [completions]; lia. }
    lia.
Qed.

(** C1. Two consecutive calls of the initiator on the same peripheral
    that both return, with any actions in between that begin no transaction
    on that peripheral: the second call found the static descriptor free
    (its busy-wait tested [busy] false immediately before it overwrote the
    descriptor), and between the two calls the stop-detected handler ran
    on that descriptor in [m_stop] while it was still busy and cleared
    [busy].  Over any run, the transactions begun on a peripheral exceed
    the completion paths taken on it by at most one. *)
Theorem second_begin_follows_completion
        (p : I2C_TypeDef) (fuel1 fuel2 : nat) (d1 d2 : I2C_SM_STRUCT)
        (between : list action) (s s1 s2 s3 : system) :
  I2Cn d1 = p ->
  I2Cn d2 = p ->
  begins p between = 0%nat ->
  i2c_init_sm fuel1 d1 s = (Ok tt, s1) ->
  run between s1 = (Ok tt, s2) ->
  i2c_init_sm fuel2 d2 s2 = (Ok tt, s3) ->
  busy (slot p s2) = false /\
  slot p s3 = set_busy true d2 /\
  trace s3 =
    trace s2 ++
    [SleepBlock; EnterCritical; WrIEN p I2C_IEN_MASK;
     PollBusy p false; WrSlot p; NvicEnable p; TimerDelay; ExitCritical] /\
  (exists pre post sm sm',
      between = pre ++ IrqMstop p :: post /\
      run pre s1 = (Ok tt, sm) /\
      busy (slot p sm) = true /\
      curr_state (slot p sm) = m_stop /\
      i2cn_mstop_sm p sm = (Ok tt, sm') /\
      busy (slot p sm') = false /\
      run post sm' = (Ok tt, s2)) /\
  (forall acts s0 s0',
      run acts s0 = (Ok tt, s0') ->
      (begins p acts <= completions p acts + 1)%nat).
Proof.
  intros H1 H2 Hbeg Hfirst Hrun Hsecond. subst p.
  destruct (i2c_init_sm_returns _ _ _ _ Hfirst) as (_ & Hslot1 & _).
  destruct (i2c_init_sm_returns _ _ _ _ Hsecond) as (Hfree & Hslot3 & Htr).
  rewrite H2 in Hfree, Hslot3, Htr.
  split; [exact Hfree|]. split; [exact Hslot3|]. split; [exact Htr|]. split.
  - apply (busy_is_cleared_by_completion (I2Cn d1) between s1 s2);
      try assumption.
    rewrite Hslot1. reflexivity.
  - intros acts s0 s0' Hacts.
    pose proof (live_transactions_bounded (I2Cn d1) acts s0 s0' Hacts) as Hb.
    destruct (busy (slot (I2Cn d1) s0')), (busy (slot (I2Cn d1) s0));
      cbn [b2n] in Hb; lia.
Qed.

Lemma second_begin_follows_completion_witness :
  let s1 := snd (i2c_init_sm 1 si7021_read sys0) in
  let s2 := snd (run (read_events si7021_read I2C0) s1) in
  let s3 := snd (i2c_init_sm 1 si7021_read s2) in
  busy (slot I2C0 s1) = true /\
  busy (slot I2C0 s2) = false /\
  slot I2C0 s3 = set_busy true si7021_read.
Proof.
  cbv zeta. split; [vm_compute; reflexivity|].
  refine (let H :=
            second_begin_follows_completion
              I2C0 1 1 si7021_read si7021_read
              (read_events si7021_read I2C0) sys0
              (snd (i2c_init_sm 1 si7021_read sys0))
              (snd (run (read_events si7021_read I2C0)
                        (snd (i2c_init_sm 1 si7021_read sys0))))
              (snd (i2c_init_sm 1 si7021_read
                      (snd (run (read_events si7021_read I2C0)
                                (snd (i2c_init_sm 1 si7021_read sys0))))))
              _ _ _ _ _ _ in
          conj (proj1 H) (proj1 (proj2 H)));
    vm_compute; reflexivity.
Defined.

(** C3. The busy-wait of the initiator is inside its critical section.
    With a transaction in flight on I2C0 (begun by a first call that
    returned with interrupts enabled again), a second call enters the
    critical section and then tests [busy]: every test of the three that
    are modelled sees it set, the call does not return, and interrupts are
    still masked, so the stop-detected handler that would clear [busy]
    cannot run. *)
Theorem i2c_init_sm_polls_busy_with_interrupts_masked :
  let in_flight := snd (i2c_init_sm 1 si7021_read sys0) in
  let second := i2c_init_sm 3 si7021_read in_flight in
  fst (i2c_init_sm 1 si7021_read sys0) = Ok tt /\
  busy (slot I2C0 in_flight) = true /\
  primask in_flight = false /\
  fst second = Stalled /\
  primask (snd second) = true /\
  trace (snd second) =
    trace in_flight ++
    [SleepBlock; EnterCritical; WrIEN I2C0 I2C_IEN_MASK;
     PollBusy I2C0 true; PollBusy I2C0 true; PollBusy I2C0 true].
Proof. cbv zeta. repeat split; vm_compute; reflexivity. Qed.

(** The stall does not depend on the number of tests that are modelled:
    a call of the initiator on a busy descriptor never returns, and it
    holds the interrupt mask while it waits. *)
Lemma i2c_init_sm_never_returns_when_busy
      (fuel : nat) (d : I2C_SM_STRUCT) (s : system) :
  busy (slot (I2Cn d) s) = true ->
  fst (i2c_init_sm fuel d s) = Stalled /\
  primask (snd (i2c_init_sm fuel d s)) = true /\
  trace (snd (i2c_init_sm fuel d s)) =
    trace s ++
    [SleepBlock; EnterCritical; WrIEN (I2Cn d) I2C_IEN_MASK] ++
    repeat (PollBusy (I2Cn d) true) fuel.
Proof.
  intros Hbusy. rewrite i2c_init_sm_run. cbv zeta. rewrite Hbusy.
  cbn [fst snd]. split; [reflexivity|].
  destruct (I2Cn d); cbn; rewrite <- app_assoc; split; reflexivity.
Qed.

(* ------------------------------------------------------------------ *)
(** ** A complete two-byte read                                        *)
(* ------------------------------------------------------------------ *)

Lemma run_cons_eq (a : action) (rest : list action) (s s1 : system) :
  step a s = (Ok tt, s1) -> run (a :: rest) s = run rest s1.
Proof. intros H. cbn [run]. unfold bind. rewrite H. reflexivity. Qed.

(** Executes the first action of the run in the goal, with [tac] proving
    that it returns, and continues from the state it reaches. *)
Ltac run_step tac :=
  lazymatch goal with
  | |- context [run (?a :: ?rest) ?s] =>
      let H := fresh "Hstep" in
      eassert (H : step a s = (Ok tt, _));
      [ tac | rewrite (run_cons_eq a rest s _ H); clear H ]
  end.

(** C6 (amended). A transaction for two bytes is begun on a peripheral
    that is free and idle, with the destination word zero, and its header
    is transmitted.  The events ACK, ACK, ACK, byte 0xAB, byte 0x12,
    stop-detected then drive it to completion, provided the hardware
    raises the stop-detected flag during the final bus reset: the
    destination word is 0xAB12, [busy] is false, the callback has been
    handed to the scheduler exactly once and the energy mode has been
    released exactly once (after having been blocked exactly once). *)
Theorem two_byte_read_completes
        (p : I2C_TypeDef) (fuel : nat) (d : I2C_SM_STRUCT) (s : system)
        (v : Z) (rest rest' : list Z) :
  I2Cn d = p -> txdata d = p -> rxdata d = p ->
  curr_state d = req_res ->
  num_bytes d = 2 ->
  busy (slot p s) = false ->
  Z.land (STATE (regs p s)) _I2C_STATE_STATE_MASK = I2C_STATE_STATE_IDLE ->
  mem s (data d) = 0 ->
  IF_reads (regs p s) = v :: rest ->
  poll_mstop rest = Some rest' ->
  let t := completed_read_trace p (slave_addr d) (i2c_cb d) in
  exists s',
    run (Begin (S fuel) d :: read_events d p) s = (Ok tt, s') /\
    mem s' (data d) = 0xAB12 /\
    busy (slot p s') = false /\
    trace s' = trace s ++ t /\
    filter is_scheduled t = [Scheduled (i2c_cb d)] /\
    filter is_sleep_unblock t = [SleepUnblock] /\
    filter is_sleep_block t = [SleepBlock].
Proof.
  intros HI Htx Hrx Hst Hn Hbusy Hidle Hmem Hreads Hpoll.
  apply Z.eqb_eq in Hidle.
  destruct d as [q c b a tx rx da n cb].
  cbn in HI, Htx, Hrx, Hst, Hn, Hmem. subst.
  destruct s as [[ien0 st0 rx0 rd0] [ien1 st1 rx1 rd1] d0 d1 m pm t].
  unfold read_events.
  destruct p; cbn in Hbusy, Hidle, Hmem, Hreads; subst.
  all: run_step ltac:(cbn [step]; rewrite i2c_init_sm_run; cbv zeta; cbn;
                      rewrite Hbusy, Hidle; reflexivity).
  all: run_step ltac:(exec; reflexivity).
  all: run_step ltac:(exec; reflexivity).
  all: run_step ltac:(exec; reflexivity).
  all: run_step ltac:(exec; reflexivity).
  all: run_step ltac:(exec; change (wrap32 (2 - 1)) with 1;
                      change (1 >? 0) with true; exec; reflexivity).
  all: run_step ltac:(exec; change (wrap32 (1 - 1)) with 0;
                      change (0 >? 0) with false; exec; reflexivity).
  all: run_step ltac:(exec; rewrite land_reset_value_is_zero;
                      rewrite Hpoll; reflexivity).
  all: cbv zeta; eexists; split; [reflexivity|].
  all: cbn [mem slot trace busy data slave_addr i2c_cb].
  all: rewrite !Z.eqb_refl, Hmem.
  all: split; [vm_compute; reflexivity|].
  all: split; [reflexivity|].
  all: split; [rewrite <- !app_assoc; reflexivity|].
  all: repeat split; reflexivity.
Qed.

Lemma two_byte_read_completes_witness :
  exists s',
    run (Begin 1 si7021_read :: read_events si7021_read I2C0) sys0 = (Ok tt, s') /\
    mem s' 0x20000000 = 0xAB12 /\
    busy (slot I2C0 s') = false.
Proof.
  destruct (two_byte_read_completes I2C0 0 si7021_read sys0
              0x10 [0x110; 0x10; 0x110] [0x10; 0x110])
    as (s' & Hrun & Hmem & Hbusy & _); try (vm_compute; reflexivity).
  exists s'. split; [exact Hrun|]. split; [exact Hmem | exact Hbusy].
Defined.

(** C6, counterexample to the scenario as the specification states it. With two ACK events only,
    the descriptor is in [data_req] when the bytes arrive: the
    byte-received handler ignores both, the destination word stays zero,
    and the stop-detected handler fails its assertion; [busy] stays set,
    nothing is scheduled and the energy mode is not released. *)
Lemma two_acks_stop_in_data_req :
  let acts := [Begin 1 si7021_read; TxStart si7021_read SI7021_I2C_WRITE;
               IrqAck I2C0; IrqAck I2C0;
               IrqRx I2C0 0xAB; IrqRx I2C0 0x12; IrqMstop I2C0] in
  let s' := snd (run acts sys0) in
  fst (run acts sys0) = AssertFailed /\
  curr_state (slot I2C0 s') = data_req /\
  mem s' (data si7021_read) = 0 /\
  mem s' (data si7021_read) <> 0xAB12 /\
  busy (slot I2C0 s') = true /\
  filter is_scheduled (trace s') = [] /\
  filter is_sleep_unblock (trace s') = [].
Proof.
  cbv zeta. repeat split; try (vm_compute; reflexivity).
  vm_compute. discriminate.
Qed.

(* ------------------------------------------------------------------ *)
(** ** The header byte                                                 *)
(* ------------------------------------------------------------------ *)

Lemma r_w_header_value (addr rw : Z) :
  0 <= addr < 128 -> 0 <= rw <= 1 -> r_w_header addr rw = 2 * addr + rw.
Proof.
  intros Ha Hrw. unfold r_w_header.
  rewrite lor_shiftl_low by lia. change (2 ^ 1) with 2.
  rewrite wrap32_small by lia. lia.
Qed.

(** X3. The header byte that [i2c_tx_start] builds from a 7-bit address
    and a direction bit fits one byte and decodes back: its upper seven
    bits are the address, its lowest bit is the direction, so two
    transmissions have the same header only for the same address and
    direction. *)
Theorem r_w_header_decodes (addr rw : Z) :
  0 <= addr < 128 ->
  0 <= rw <= 1 ->
  let h := r_w_header addr rw in
  0 <= h < 256 /\
  Z.shiftr h 1 = addr /\
  Z.land h 1 = rw /\
  (forall addr' rw',
      0 <= addr' < 128 -> 0 <= rw' <= 1 ->
      r_w_header addr' rw' = h -> addr' = addr /\ rw' = rw).
Proof.
  intros Ha Hrw. cbv zeta. rewrite r_w_header_value by assumption.
  split; [lia|]. split.
  { rewrite Z.shiftr_div_pow2 by lia. change (2 ^ 1) with 2.
    symmetry. apply (Z.div_unique _ 2 addr rw); lia. }
  split.
  { change 1 with (Z.ones 1) at 1. rewrite Z.land_ones by lia.
    change (2 ^ 1) with 2. symmetry.
    apply (Z.mod_unique _ 2 addr rw); lia. }
  intros addr' rw' Ha' Hrw' Heq.
  rewrite r_w_header_value in Heq by assumption. lia.
Qed.

Lemma r_w_header_decodes_witness :
  r_w_header 0x40 SI7021_I2C_READ = 0x81 /\
  Z.shiftr (r_w_header 0x40 SI7021_I2C_READ) 1 = 0x40.
Proof.
  split; [vm_compute; reflexivity|].
  refine (proj1 (proj2 (r_w_header_decodes 0x40 SI7021_I2C_READ _ _)));
    unfold SI7021_I2C_READ; lia.
Defined.

(* ------------------------------------------------------------------ *)
(** ** Acknowledged and retried steps                                  *)
(* ------------------------------------------------------------------ *)

Lemma run_app_eq (pre post : list action) (s : system) :
  run (pre ++ post) s = bind (run pre) (fun _ => run post) s.
Proof.
  revert s. induction pre as [|a pre IH]; intros s.
  - reflexivity.
  - cbn [app run]. unfold bind in *.
    destruct (step a s) as [[[]| |] s1]; [apply IH | reflexivity | reflexivity].
Qed.

(** The ACK handler in the three states it handles. *)
Lemma i2cn_ack_sm_run (p : I2C_TypeDef) (s : system) :
  let d := slot p s in
  table_lists EvAck (curr_state d) = true ->
  i2cn_ack_sm p s =
  (Ok tt,
   with_trace (trace s ++ EnterCritical :: ack_writes d ++ [TimerDelay; ExitCritical])
              (with_slot p (set_curr_state (ack_next (curr_state d)) d) s)).
Proof.
  cbv zeta. intros H. split_system s p; exec;
    match type of H with
    | table_lists _ ?c = true => destruct c; try discriminate H
    end;
    rewrite <- ?app_assoc; reflexivity.
Qed.

(** The NACK handler in the three states it handles. *)
Lemma i2cn_nack_sm_block (p : I2C_TypeDef) (s : system) :
  table_lists EvNack (curr_state (slot p s)) = true ->
  i2cn_nack_sm p s = (Ok tt, with_trace (trace s ++ nack_block (slot p s)) s).
Proof.
  intros H. split_system s p; exec;
    match type of H with
    | table_lists _ ?c = true => destruct c; try discriminate H
    end;
    rewrite <- ?app_assoc; reflexivity.
Qed.

Lemma nack_run_repeat (p : I2C_TypeDef) (n : nat) :
  forall s : system,
    table_lists EvNack (curr_state (slot p s)) = true ->
    run (repeat (IrqNack p) n) s =
    (Ok tt,
     with_trace (trace s ++ concat (repeat (nack_block (slot p s)) n)) s).
Proof.
  induction n as [|n IH]; intros s H.
  - cbn [repeat concat run]. rewrite app_nil_r, with_trace_same. reflexivity.
  - cbn [repeat concat run]. unfold bind. cbn [step].
    rewrite i2cn_nack_sm_block by exact H.
    rewrite IH by (rewrite slot_with_trace; exact H).
    rewrite slot_with_trace. cbn [trace with_trace].
    rewrite <- app_assoc. reflexivity.
Qed.

(** X4. Any number of NACK events in a state that the NACK handler
    handles is a pure retry: the run returns, each event issues the same
    command and byte again, and the descriptors, the registers, the
    memory and the interrupt mask are exactly as before; nothing bounds
    the number of retries. *)
Theorem nack_retries_change_only_the_trace
        (p : I2C_TypeDef) (n : nat) (s : system) :
  table_lists EvNack (curr_state (slot p s)) = true ->
  run (repeat (IrqNack p) n) s =
  (Ok tt, with_trace (trace s ++ concat (repeat (nack_block (slot p s)) n)) s).
Proof. intros H. apply nack_run_repeat. exact H. Qed.

Lemma nack_retries_change_only_the_trace_witness :
  fst (run (repeat (IrqNack I2C0) 3) started_sys) = Ok tt.
Proof.
  refine (f_equal fst (nack_retries_change_only_the_trace I2C0 3 started_sys _)).
  vm_compute. reflexivity.
Defined.

(** X5. An ACK that arrives after any number of NACK retries advances the
    machine exactly as it does without them: the final descriptors,
    registers and memory are those of the run with the ACK alone, and the
    trace differs only by the retry blocks issued before the writes of
    the ACK. *)
Theorem ack_after_nack_retries
        (p : I2C_TypeDef) (n : nat) (s : system) :
  let d := slot p s in
  let after := with_slot p (set_curr_state (ack_next (curr_state d)) d) s in
  let ack := EnterCritical :: ack_writes d ++ [TimerDelay; ExitCritical] in
  table_lists EvAck (curr_state d) = true ->
  run [IrqAck p] s = (Ok tt, with_trace (trace s ++ ack) after) /\
  run (repeat (IrqNack p) n ++ [IrqAck p]) s =
  (Ok tt,
   with_trace (trace s ++ concat (repeat (nack_block d) n) ++ ack) after).
Proof.
  cbv zeta. intros H. split.
  - cbn [run step]. unfold bind. rewrite i2cn_ack_sm_run by exact H.
    reflexivity.
  - rewrite run_app_eq. unfold bind at 1.
    rewrite nack_run_repeat
      by (destruct (curr_state (slot p s)); (exact H || discriminate H)).
    cbn [run step]. unfold bind.
    rewrite i2cn_ack_sm_run by (rewrite slot_with_trace; exact H).
    rewrite slot_with_trace. cbn [ret]. f_equal.
    destruct p; cbn [with_trace with_slot trace regs0 regs1 i2c0_sm i2c1_sm mem primask];
      rewrite <- app_assoc; reflexivity.
Qed.

Lemma ack_after_nack_retries_witness :
  curr_state
    (slot I2C0 (snd (run (repeat (IrqNack I2C0) 2 ++ [IrqAck I2C0]) started_sys)))
  = command_tx.
Proof.
  refine (f_equal (fun r => curr_state (slot I2C0 (snd r)))
            (proj2 (ack_after_nack_retries I2C0 2 started_sys _))).
  vm_compute. reflexivity.
Defined.

(* ------------------------------------------------------------------ *)
(** ** What every action keeps                                         *)
(* ------------------------------------------------------------------ *)

(** The three ways in which a call of the initiator ends, after its
    closed form has been substituted. *)
Ltac init_cases fuel d s :=
  cbn [step]; rewrite i2c_init_sm_run; cbv zeta;
  destruct (busy (slot (I2Cn d) s));
  [ | destruct fuel;
      [ | destruct (Z.land (STATE (regs (I2Cn d) s)) _I2C_STATE_STATE_MASK
                    =? I2C_STATE_STATE_IDLE) ] ].

Lemma step_primask (a : action) (s : system) :
  primask (snd (step a s)) =
  match fst (step a s) with
  | Ok _ => primask s
  | _ => true
  end.
Proof.
  destruct a as [fuel d | d rw | p | p | p byte | p].
  - init_cases fuel d s; destruct (I2Cn d); reflexivity.
  - reflexivity.
  - split_system s p; exec; case_stuck; reflexivity.
  - split_system s p; exec; case_stuck; reflexivity.
  - split_system s p; exec; case_stuck; reflexivity.
  - split_system s p; exec; case_stuck; reflexivity.
Qed.

(** X6. Critical sections are balanced: a run that returns leaves the
    interrupt mask as it found it, and a run that stops at a failed
    assertion or in a busy-wait stops with interrupts masked, since every
    assertion and every wait of the engine is inside a critical
    section. *)
Theorem run_restores_interrupt_mask (acts : list action) (s : system) :
  fst (run acts s) = Ok tt /\ primask (snd (run acts s)) = primask s \/
  fst (run acts s) <> Ok tt /\ primask (snd (run acts s)) = true.
Proof.
  revert s. induction acts as [|a rest IH]; intros s.
  - left. split; reflexivity.
  - cbn [run]. unfold bind.
    pose proof (step_primask a s) as Hstep.
    destruct (step a s) as [[[]| |] s1]; cbn [fst snd] in *.
    + destruct (IH s1) as [[Hok Hm] | [Hko Hm]].
      * left. split; [exact Hok | congruence].
      * right. split; assumption.
    + right. split; [discriminate | exact Hstep].
    + right. split; [discriminate | exact Hstep].
Qed.

Lemma step_slots_bound (a : action) (s : system) :
  slots_bound s -> slots_bound (snd (step a s)).
Proof.
  unfold slots_bound.
  destruct a as [fuel d | d rw | p | p | p byte | p]; intros [H0 H1].
  - init_cases fuel d s;
      destruct (I2Cn d) eqn:Hd; cbn [snd slot with_trace with_regs with_primask
                                      with_slot i2c0_sm i2c1_sm set_busy I2Cn];
      (split; assumption).
  - split; assumption.
  - split_system s p; exec; subst; case_stuck; split; reflexivity.
  - split_system s p; exec; subst; case_stuck; split; reflexivity.
  - split_system s p; exec; subst; case_stuck; split; reflexivity.
  - split_system s p; exec; subst; case_stuck; split; reflexivity.
Qed.

(** X7. Each static descriptor only ever drives its own peripheral: the
    initiator writes [i2c0_sm] only for a descriptor of I2C0 and [i2c1_sm]
    only for one of I2C1, and no handler writes the [I2Cn] field, so the
    binding holds after every run, however the run ends. *)
Theorem run_keeps_slots_bound (acts : list action) (s : system) :
  slots_bound s -> slots_bound (snd (run acts s)).
Proof.
  revert s. induction acts as [|a rest IH]; intros s H; [exact H|].
  cbn [run]. unfold bind.
  pose proof (step_slots_bound a s H) as Hstep.
  destruct (step a s) as [[[]| |] s1]; cbn [snd] in *;
    [apply IH; exact Hstep | exact Hstep | exact Hstep].
Qed.

Lemma run_keeps_slots_bound_witness :
  slots_bound (snd (run (Begin 1 si7021_read :: read_events si7021_read I2C0) sys0)).
Proof.
  refine (run_keeps_slots_bound _ sys0 _). split; reflexivity.
Defined.

Lemma step_state_rank (p : I2C_TypeDef) (a : action) (s : system) :
  match a with Begin _ d => I2Cn d <> p | _ => True end ->
  (state_rank (curr_state (slot p s)) <=
   state_rank (curr_state (slot p (snd (step a s)))) <=
   S (state_rank (curr_state (slot p s))))%nat.
Proof.
  destruct a as [fuel d | d rw | q | q | q byte | q]; intros H.
  - cbn [step]. rewrite i2c_init_sm_other_slot by congruence. lia.
  - destruct p; cbn; lia.
  - split_system s q; destruct p; exec; case_stuck; cbn; lia.
  - split_system s q; destruct p; exec; case_stuck; cbn; lia.
  - split_system s q; destruct p; exec; case_stuck; cbn; lia.
  - split_system s q; destruct p; exec; case_stuck; cbn; lia.
Qed.

(** X8. Between two calls of the initiator a descriptor never goes back:
    every action that is not a begin on its peripheral leaves its state
    where it is or advances it by one step of the order request,
    command, data request, data receive, stop.  In particular a
    descriptor in [m_stop] stays in [m_stop]: the completion path does not
    leave that state, only the next call of the initiator does. *)
Theorem state_never_goes_back
        (p : I2C_TypeDef) (acts : list action) (s : system) :
  begins p acts = 0%nat ->
  (state_rank (curr_state (slot p s)) <=
   state_rank (curr_state (slot p (snd (run acts s)))) <=
   state_rank (curr_state (slot p s)) + length acts)%nat /\
  (curr_state (slot p s) = m_stop ->
   curr_state (slot p (snd (run acts s))) = m_stop).
Proof.
  intros Hbeg.
  assert (Hrank :
            (state_rank (curr_state (slot p s)) <=
             state_rank (curr_state (slot p (snd (run acts s)))) <=
             state_rank (curr_state (slot p s)) + length acts)%nat).
  { revert s Hbeg. induction acts as [|a rest IH]; intros s Hbeg.
    - cbn. lia.
    - assert (Ha : match a with Begin _ d => I2Cn d <> p | _ => True end /\
                   begins p rest = 0%nat).
      { destruct a as [fuel d | | | | |]; cbn [begins] in Hbeg;
          try (split; [exact I | exact Hbeg]).
        destruct (I2C_eqb (I2Cn d) p) eqn:He; [cbn in Hbeg; lia|].
        split; [|exact Hbeg].
        intros Heq. apply I2C_eqb_eq in Heq. congruence. }
      destruct Ha as [Ha Hrest].
      pose proof (step_state_rank p a s Ha) as Hstep.
      cbn [run length]. unfold bind.
      destruct (step a s) as [[[]| |] s1]; cbn [snd] in *; try lia.
      specialize (IH s1 Hrest). lia. }
  split; [exact Hrank|].
  intros Hstop. rewrite Hstop in Hrank. cbn [state_rank] in Hrank.
  destruct (curr_state (slot p (snd (run acts s)))); cbn [state_rank] in Hrank;
    (reflexivity || lia).
Qed.

Lemma state_never_goes_back_witness :
  curr_state
    (slot I2C0 (snd (run [IrqRx I2C0 0x55; IrqMstop I2C0; IrqRx I2C0 0x66]
                         (snd (run (read_events si7021_read I2C0) started_sys)))))
  = m_stop.
Proof.
  refine (proj2 (state_never_goes_back
                   I2C0 [IrqRx I2C0 0x55; IrqMstop I2C0; IrqRx I2C0 0x66]
                   (snd (run (read_events si7021_read I2C0) started_sys))
                   eq_refl) _).
  vm_compute. reflexivity.
Defined.







(* ------------------------------------------------------------------ *)
(** ** Where memory is written                                         *)
(* ------------------------------------------------------------------ *)




(* ------------------------------------------------------------------ *)
(** ** Energy mode and scheduler accounting                            *)
(* ------------------------------------------------------------------ *)

Lemma step_accounting (a : action) (s : system) :
  fst (step a s) = Ok tt ->
  exists delta,
    trace (snd (step a s)) = trace s ++ delta /\
    filter is_sleep_block delta = (if is_begin a then [SleepBlock] else []) /\
    filter is_sleep_unblock delta =
      (if is_stop_event a then [SleepUnblock] else []) /\
    filter is_scheduled delta =
      match a with
      | IrqMstop p => [Scheduled (i2c_cb (slot p s))]
      | _ => []
      end.
Proof.
  destruct a as [fuel d | d rw | p | p | p byte | p].
  - init_cases fuel d s; intros H; try discriminate H;
      destruct (I2Cn d); cbn [snd trace with_trace with_primask];
      rewrite <- ?app_assoc; eexists; (split; [reflexivity|]);
      repeat split; reflexivity.
  - intros _. destruct s; exec; rewrite <- ?app_assoc; eexists;
      (split; [reflexivity|]); repeat split; reflexivity.
  - split_system s p; exec; case_stuck; intros H; try discriminate H;
      rewrite <- ?app_assoc; eexists; (split; [reflexivity|]);
      repeat split; reflexivity.
  - split_system s p; exec; case_stuck; intros H; try discriminate H;
      rewrite <- ?app_assoc; eexists; (split; [reflexivity|]);
      repeat split; reflexivity.
  - split_system s p; exec; case_stuck; intros H; try discriminate H;
      rewrite <- ?app_assoc; eexists; (split; [reflexivity|]);
      repeat split; reflexivity.
  - split_system s p; exec; case_stuck; intros H; try discriminate H;
      rewrite <- ?app_assoc; eexists; (split; [reflexivity|]);
      repeat split; reflexivity.
Qed.

(** X11. Over any run that returns, the energy mode is blocked once per
    call of the initiator and by nothing else, and it is unblocked once,
    and one callback is handed to the scheduler, per stop-detected event
    and by nothing else. *)
Theorem energy_mode_and_scheduler_accounting
        (acts : list action) (s s' : system) :
  run acts s = (Ok tt, s') ->
  exists delta,
    trace s' = trace s ++ delta /\
    length (filter is_sleep_block delta) = length (filter is_begin acts) /\
    length (filter is_sleep_unblock delta) = length (filter is_stop_event acts) /\
    length (filter is_scheduled delta) = length (filter is_stop_event acts).
Proof.
  revert s. induction acts as [|a rest IH]; intros s Hrun.
  - cbn in Hrun. injection Hrun as <-. exists []. rewrite app_nil_r.
    repeat split; reflexivity.
  - apply run_cons_ok in Hrun. destruct Hrun as (s1 & Hstep & Hrest).
    destruct (step_accounting a s) as (d1 & Ht1 & Hb1 & Hu1 & Hs1);
      [rewrite Hstep; reflexivity|].
    rewrite Hstep in Ht1. cbn [snd] in Ht1.
    destruct (IH s1 Hrest) as (d2 & Ht2 & Hb2 & Hu2 & Hs2).
    exists (d1 ++ d2). rewrite Ht2, Ht1, <- app_assoc.
    split; [reflexivity|].
    rewrite !filter_app, !length_app, Hb1, Hu1, Hs1, Hb2, Hu2, Hs2.
    cbn [filter]. destruct a; cbn; repeat split; reflexivity.
Qed.

Lemma energy_mode_and_scheduler_accounting_witness :
  exists delta,
    trace (snd (run (Begin 1 si7021_read :: read_events si7021_read I2C0) sys0))
    = trace sys0 ++ delta /\
    length (filter is_sleep_block delta) = 1%nat /\
    length (filter is_sleep_unblock delta) = 1%nat /\
    length (filter is_scheduled delta) = 1%nat.
Proof.
  refine (energy_mode_and_scheduler_accounting
            (Begin 1 si7021_read :: read_events si7021_read I2C0) sys0 _ _).
  vm_compute. reflexivity.
Defined.

(* ------------------------------------------------------------------ *)
(** ** The completion path                                             *)
(* ------------------------------------------------------------------ *)

Lemma i2cn_mstop_sm_completes
      (p : I2C_TypeDef) (s : system) (v : Z) (rest rest' : list Z) :
  curr_state (slot p s) = m_stop ->
  IF_reads (regs (I2Cn (slot p s)) s) = v :: rest ->
  poll_mstop rest = Some rest' ->
  i2cn_mstop_sm p s = (Ok tt, completed p rest' s).
Proof.
  intros Hst Hreads Hpoll. unfold completed.
  split_system s p; exec; subst;
    match goal with
    | q : I2C_TypeDef |- context [WrCMD ?q I2C_CMD_ABORT] => is_var q; destruct q
    end;
    exec; subst; rewrite land_reset_value_is_zero, Hpoll;
    rewrite <- ?app_assoc; reflexivity.
Qed.

Lemma completed_slot (p : I2C_TypeDef) (rest' : list Z) (s : system) :
  slot p (completed p rest' s) = set_busy I2C_BUS_READY (slot p s).
Proof. unfold completed. destruct p, (I2Cn (slot _ s)); reflexivity. Qed.

Lemma completed_regs (p : I2C_TypeDef) (rest' : list Z) (s : system) :
  let r := regs (I2Cn (slot p s)) s in
  regs (I2Cn (slot p s)) (completed p rest' s) =
  mkRegs (IEN r) (STATE r) (RXDATA r) rest'.
Proof. unfold completed. destruct p, (I2Cn (slot _ s)); reflexivity. Qed.

Lemma completed_trace (p : I2C_TypeDef) (rest' : list Z) (s : system) :
  trace (completed p rest' s) =
  trace s ++
  completion_trace (I2Cn (slot p s)) (i2c_cb (slot p s))
                   (IEN (regs (I2Cn (slot p s)) s)).
Proof. unfold completed. destruct p, (I2Cn (slot _ s)); reflexivity. Qed.

(** X12. The completion path in full.  A stop-detected event on a
    descriptor in [m_stop], with a hardware that raises the stop-detected
    flag during the bus reset, returns; it has cleared [busy] and changed
    no other field of the descriptor, so the descriptor is still in
    [m_stop]; it has unblocked the energy mode, then handed the
    descriptor's callback to the scheduler, then reset the bus of the
    descriptor's peripheral, in that order; memory, the interrupt mask
    and IEN are as before. *)
Theorem completion_path_postcondition
        (p : I2C_TypeDef) (s : system) (v : Z) (rest rest' : list Z) :
  let d := slot p s in
  let q := I2Cn d in
  curr_state d = m_stop ->
  IF_reads (regs q s) = v :: rest ->
  poll_mstop rest = Some rest' ->
  exists s',
    i2cn_mstop_sm p s = (Ok tt, s') /\
    slot p s' = set_busy I2C_BUS_READY d /\
    curr_state (slot p s') = m_stop /\
    (forall x, mem s' x = mem s x) /\
    primask s' = primask s /\
    IEN (regs q s') = IEN (regs q s) /\
    trace s' = trace s ++ completion_trace q (i2c_cb d) (IEN (regs q s)).
Proof.
  cbv zeta. intros Hst Hreads Hpoll.
  exists (completed p rest' s).
  split; [eapply i2cn_mstop_sm_completes; eassumption|].
  split; [apply completed_slot|].
  split; [rewrite completed_slot; exact Hst|].
  split; [intros x; unfold completed; destruct p, (I2Cn (slot _ s)); reflexivity|].
  split; [unfold completed; destruct p, (I2Cn (slot _ s)); reflexivity|].
  split; [rewrite completed_regs; reflexivity|].
  apply completed_trace.
Qed.

Lemma completion_path_postcondition_witness :
  exists s',
    i2cn_mstop_sm I2C0
      (snd (run [IrqRx I2C0 0xAB; IrqRx I2C0 0x12] receiving_sys)) = (Ok tt, s') /\
    busy (slot I2C0 s') = false.
Proof.
  destruct (completion_path_postcondition
              I2C0 (snd (run [IrqRx I2C0 0xAB; IrqRx I2C0 0x12] receiving_sys))
              0x10 [0x110] [])
    as (s' & Hrun & Hslot & _); try (vm_compute; reflexivity).
  exists s'. split; [exact Hrun|]. rewrite Hslot. reflexivity.
Defined.

(** X13. The completion path is not guarded against a second
    stop-detected event: since it leaves the descriptor in [m_stop], a
    second event runs it again; the energy mode is unblocked a second
    time and the same callback is handed to the scheduler a second
    time. *)
Theorem second_stop_event_repeats_completion
        (p : I2C_TypeDef) (s : system) (v1 v2 : Z) (r1 r2 r3 : list Z) :
  let d := slot p s in
  let q := I2Cn d in
  let once := completion_trace q (i2c_cb d) (IEN (regs q s)) in
  curr_state d = m_stop ->
  IF_reads (regs q s) = v1 :: r1 ->
  poll_mstop r1 = Some (v2 :: r2) ->
  poll_mstop r2 = Some r3 ->
  exists s',
    run [IrqMstop p; IrqMstop p] s = (Ok tt, s') /\
    trace s' = trace s ++ once ++ once /\
    filter is_scheduled (once ++ once) =
      [Scheduled (i2c_cb d); Scheduled (i2c_cb d)] /\
    filter is_sleep_unblock (once ++ once) = [SleepUnblock; SleepUnblock].
Proof.
  cbv zeta. intros Hst Hreads Hp1 Hp2.
  pose proof (i2cn_mstop_sm_completes p s v1 r1 (v2 :: r2) Hst Hreads Hp1) as H1.
  set (s1 := completed p (v2 :: r2) s) in *.
  assert (Hslot1 : slot p s1 = set_busy I2C_BUS_READY (slot p s))
    by apply completed_slot.
  assert (Hregs1 : regs (I2Cn (slot p s)) s1 =
                   mkRegs (IEN (regs (I2Cn (slot p s)) s))
                          (STATE (regs (I2Cn (slot p s)) s))
                          (RXDATA (regs (I2Cn (slot p s)) s)) (v2 :: r2))
    by apply completed_regs.
  assert (H2 : i2cn_mstop_sm p s1 = (Ok tt, completed p r3 s1)).
  { apply (i2cn_mstop_sm_completes p s1 v2 r2 r3).
    - rewrite Hslot1. exact Hst.
    - rewrite Hslot1. cbn [I2Cn set_busy]. rewrite Hregs1. reflexivity.
    - exact Hp2. }
  exists (completed p r3 s1). split.
  { cbn [run step]. unfold bind. rewrite H1, H2. reflexivity. }
  split.
  { rewrite completed_trace, Hslot1. cbn [I2Cn set_busy i2c_cb].
    rewrite Hregs1. cbn [IEN]. unfold s1. rewrite completed_trace.
    rewrite <- app_assoc. reflexivity. }
  split; reflexivity.
Qed.

Lemma second_stop_event_repeats_completion_witness :
  exists s',
    run [IrqMstop I2C0; IrqMstop I2C0]
        (snd (run [IrqRx I2C0 0xAB; IrqRx I2C0 0x12]
                  (with_regs I2C0 (mkRegs 0x1E0 0 0 [0; 0x100; 0; 0x100])
                             receiving_sys)))
    = (Ok tt, s').
Proof.
  destruct (second_stop_event_repeats_completion
              I2C0
              (snd (run [IrqRx I2C0 0xAB; IrqRx I2C0 0x12]
                        (with_regs I2C0 (mkRegs 0x1E0 0 0 [0; 0x100; 0; 0x100])
                                   receiving_sys)))
              0 0 [0x100; 0; 0x100] [0x100] [])
    as (s' & Hrun & _); try (vm_compute; reflexivity).
  exists s'. exact Hrun.
Defined.

(* ------------------------------------------------------------------ *)
(** ** The initiator on a free descriptor                              *)
(* ------------------------------------------------------------------ *)



(** X15. The initiator on a free descriptor whose peripheral is not idle
    fails its assertion before it copies anything: both static
    descriptors are as before.  The failure comes after the energy mode
    has been blocked and the transaction interrupts have been enabled in
    IEN, and it leaves interrupts masked. *)
Theorem i2c_init_sm_on_busy_hardware
        (fuel : nat) (d : I2C_SM_STRUCT) (s : system) :
  let p := I2Cn d in
  busy (slot p s) = false ->
  Z.land (STATE (regs p s)) _I2C_STATE_STATE_MASK <> I2C_STATE_STATE_IDLE ->
  exists s',
    i2c_init_sm (S fuel) d s = (AssertFailed, s') /\
    (forall q, slot q s' = slot q s) /\
    IEN (regs p s') = I2C_IEN_MASK /\
    primask s' = true /\
    trace s' =
      trace s ++
      [SleepBlock; EnterCritical; WrIEN p I2C_IEN_MASK; PollBusy p false].
Proof.
  cbv zeta. intros Hbusy Hidle. apply Z.eqb_neq in Hidle.
  rewrite i2c_init_sm_run. cbv zeta. rewrite Hbusy, Hidle.
  destruct (I2Cn d); eexists; (split; [reflexivity|]);
    cbn [slot regs primask trace with_primask with_trace with_regs
         i2c0_sm i2c1_sm regs0 regs1 IEN];
    (split; [intros q; destruct q; reflexivity|]);
    (split; [reflexivity|]); (split; [reflexivity|]);
    rewrite <- app_assoc; reflexivity.
Qed.

Lemma i2c_init_sm_on_busy_hardware_witness :
  fst (i2c_init_sm 1 si7021_read
         (with_regs I2C0 (mkRegs 0 0x60 0 []) sys0)) = AssertFailed.
Proof.
  destruct (i2c_init_sm_on_busy_hardware
              0 si7021_read (with_regs I2C0 (mkRegs 0 0x60 0 []) sys0))
    as (s' & Hrun & _).
  - vm_compute. reflexivity.
  - vm_compute. discriminate.
  - rewrite Hrun. reflexivity.
Defined.

(* ------------------------------------------------------------------ *)
(** ** What the bus reset leaves alone                                 *)
(* ------------------------------------------------------------------ *)


(* ------------------------------------------------------------------ *)
(** ** The interrupt vector                                            *)
(* ------------------------------------------------------------------ *)

Lemma bind_ret_tt (m : M unit) (s : system) :
  bind m (fun _ => ret tt) s = m s.
Proof. unfold bind, ret. destruct (m s) as [[[]| |] s1]; reflexivity. Qed.

Lemma hw_receive_same (p : I2C_TypeDef) (byte : Z) (s : system) :
  RXDATA (regs p s) = byte -> hw_receive p byte s = (Ok tt, s).
Proof.
  intros <-. unfold hw_receive.
  destruct s as [[? ? ? ?] [? ? ? ?] ? ? ? ? ?]; destruct p; reflexivity.
Qed.

Lemma ack_nack_keep_regs (p q : I2C_TypeDef) (s : system) :
  regs q (snd (i2cn_ack_sm p s)) = regs q s /\
  regs q (snd (i2cn_nack_sm p s)) = regs q s.
Proof.
  split; split_system s p; destruct q; exec; case_stuck; reflexivity.
Qed.

Lemma vector_tail_mstop (f : Z) (p : I2C_TypeDef) (s : system) :
  on_flag f I2C_IF_MSTOP (i2cn_mstop_sm p) s =
  run (if Z.land f I2C_IF_MSTOP =? 0 then [] else [IrqMstop p]) s.
Proof.
  unfold on_flag. destruct (Z.land f I2C_IF_MSTOP =? 0); [reflexivity|].
  cbn [run step]. symmetry. apply bind_ret_tt.
Qed.

Lemma vector_tail_rx (f : Z) (p : I2C_TypeDef) (byte : Z) (s : system) :
  RXDATA (regs p s) = byte ->
  bind (on_flag f I2C_IF_RXDATAV (i2cn_rxdata_sm p))
       (fun _ => on_flag f I2C_IF_MSTOP (i2cn_mstop_sm p)) s =
  run ((if Z.land f I2C_IF_RXDATAV =? 0 then [] else [IrqRx p byte]) ++
       (if Z.land f I2C_IF_MSTOP =? 0 then [] else [IrqMstop p])) s.
Proof.
  intros Hrx. unfold on_flag at 1.
  destruct (Z.land f I2C_IF_RXDATAV =? 0).
  - cbn [app]. unfold bind, ret. apply vector_tail_mstop.
  - cbn [app run step]. unfold bind.
    rewrite (hw_receive_same p byte s Hrx).
    destruct (i2cn_rxdata_sm p s) as [[[]| |] s1]; try reflexivity.
    apply vector_tail_mstop.
Qed.

Lemma vector_tail_nack (f : Z) (p : I2C_TypeDef) (byte : Z) (s : system) :
  RXDATA (regs p s) = byte ->
  bind (on_flag f I2C_IF_NACK (i2cn_nack_sm p))
       (fun _ =>
          bind (on_flag f I2C_IF_RXDATAV (i2cn_rxdata_sm p))
               (fun _ => on_flag f I2C_IF_MSTOP (i2cn_mstop_sm p))) s =
  run ((if Z.land f I2C_IF_NACK =? 0 then [] else [IrqNack p]) ++
       (if Z.land f I2C_IF_RXDATAV =? 0 then [] else [IrqRx p byte]) ++
       (if Z.land f I2C_IF_MSTOP =? 0 then [] else [IrqMstop p])) s.
Proof.
  intros Hrx. unfold on_flag at 1.
  destruct (Z.land f I2C_IF_NACK =? 0).
  - cbn [app]. unfold bind at 1. unfold ret at 1.
    apply vector_tail_rx. exact Hrx.
  - cbn [app run step]. unfold bind at 1 3.
    pose proof (proj2 (ack_nack_keep_regs p p s)) as Hregs.
    destruct (i2cn_nack_sm p s) as [[[]| |] s1]; try reflexivity.
    cbn [snd] in Hregs. apply vector_tail_rx. rewrite Hregs. exact Hrx.
Qed.

Lemma vector_tail_ack (f : Z) (p : I2C_TypeDef) (byte : Z) (s : system) :
  RXDATA (regs p s) = byte ->
  bind (on_flag f I2C_IF_ACK (i2cn_ack_sm p))
       (fun _ =>
          bind (on_flag f I2C_IF_NACK (i2cn_nack_sm p))
               (fun _ =>
                  bind (on_flag f I2C_IF_RXDATAV (i2cn_rxdata_sm p))
                       (fun _ => on_flag f I2C_IF_MSTOP (i2cn_mstop_sm p)))) s =
  run (pending_events f p byte) s.
Proof.
  intros Hrx. unfold pending_events, on_flag at 1.
  destruct (Z.land f I2C_IF_ACK =? 0).
  - cbn [app]. unfold bind at 1. unfold ret at 1.
    apply vector_tail_nack. exact Hrx.
  - cbn [app run step]. unfold bind at 1 4.
    pose proof (proj1 (ack_nack_keep_regs p p s)) as Hregs.
    destruct (i2cn_ack_sm p s) as [[[]| |] s1]; try reflexivity.
    cbn [snd] in Hregs. apply vector_tail_nack. rewrite Hregs. exact Hrx.
Qed.

Lemma I2Cn_IRQHandler_run
      (p : I2C_TypeDef) (s : system) (v : Z) (rest : list Z) :
  IF_reads (regs p s) = v :: rest ->
  I2Cn_IRQHandler p s =
  run (pending_events (Z.land v (IEN (regs p s))) p (RXDATA (regs p s)))
      (acknowledged p v rest s).
Proof.
  intros Hreads.
  rewrite <- (vector_tail_ack _ p (RXDATA (regs p s)) (acknowledged p v rest s)).
  - unfold I2Cn_IRQHandler, acknowledged.
    unfold bind at 1. unfold rd_IF. rewrite Hreads.
    unfold bind at 1. unfold rd_IEN at 1.
    rewrite regs_with_regs_same. cbn [IEN].
    unfold bind at 1. unfold wr_IFC at 1, emit at 1.
    rewrite trace_with_regs. reflexivity.
  - unfold acknowledged. rewrite regs_with_trace, regs_with_regs_same.
    reflexivity.
Qed.

Lemma irq_vector_eq (p : I2C_TypeDef) : irq_vector p = I2Cn_IRQHandler p.
Proof. destruct p; reflexivity. Qed.

(** X17. One entry of the interrupt vector of a peripheral reads IF,
    writes to IFC exactly the flags that are both raised and enabled in
    IEN (a flag that is raised but not enabled is not acknowledged), and
    then behaves as the handlers of the acknowledged flags run one after
    the other in the fixed order ACK, NACK, byte received, stop
    detected, each on the state the previous one left, stopping at the
    first that fails. *)
Theorem irq_vector_runs_pending_events
        (p : I2C_TypeDef) (s : system) (v : Z) (rest : list Z) :
  IF_reads (regs p s) = v :: rest ->
  irq_vector p s =
  run (pending_events (Z.land v (IEN (regs p s))) p (RXDATA (regs p s)))
      (acknowledged p v rest s).
Proof.
  intros Hreads. rewrite irq_vector_eq. apply I2Cn_IRQHandler_run. exact Hreads.
Qed.

Lemma irq_vector_runs_pending_events_witness :
  curr_state
    (slot I2C0
       (snd (I2C0_IRQHandler
               (with_regs I2C0 (mkRegs 0x1E0 0 0 [0x50]) started_sys))))
  = command_tx.
Proof.
  refine (eq_trans
            (f_equal (fun r => curr_state (slot I2C0 (snd r)))
               (irq_vector_runs_pending_events
                  I2C0 (with_regs I2C0 (mkRegs 0x1E0 0 0 [0x50]) started_sys)
                  0x50 [] _)) _);
    vm_compute; reflexivity.
Defined.

Lemma flag_of_mask (f flag : Z) :
  Z.land I2C_IEN_MASK flag = flag ->
  Z.land f I2C_IEN_MASK = 0 ->
  (Z.land f flag =? 0) = true.
Proof.
  intros Hflag Hf. apply Z.eqb_eq.
  rewrite <- Hflag, Z.land_assoc, Hf. apply Z.land_0_l.
Qed.

(** X18. An entry of the vector with none of the four transaction
    sources both raised and enabled runs no handler: it returns, and the
    descriptors, memory, the interrupt mask and the registers are as
    before, apart from the read of IF and the write to IFC.  This is the
    case whatever IF holds while IEN is zero, as during the bus reset. *)
Theorem irq_vector_without_enabled_source
        (p : I2C_TypeDef) (s : system) (v : Z) (rest : list Z) :
  IF_reads (regs p s) = v :: rest ->
  Z.land (Z.land v (IEN (regs p s))) I2C_IEN_MASK = 0 ->
  irq_vector p s = (Ok tt, acknowledged p v rest s).
Proof.
  intros Hreads Hnone. rewrite irq_vector_eq.
  rewrite (I2Cn_IRQHandler_run p s v rest Hreads).
  unfold pending_events.
  rewrite !(flag_of_mask _ _ eq_refl Hnone). reflexivity.
Qed.

Lemma irq_vector_without_enabled_source_witness :
  fst (I2C0_IRQHandler
         (with_regs I2C0 (mkRegs 0 0 0 [0x7FFFF]) started_sys)) = Ok tt.
Proof.
  refine (f_equal fst
            (irq_vector_without_enabled_source
               I2C0 (with_regs I2C0 (mkRegs 0 0 0 [0x7FFFF]) started_sys)
               0x7FFFF [] _ _));
    vm_compute; reflexivity.
Defined.

(* ------------------------------------------------------------------ *)
(** ** Opening a peripheral                                            *)
(* ------------------------------------------------------------------ *)

Lemma skipn_length_app {A : Type} (l l' : list A) :
  skipn (length l) (l ++ l') = l'.
Proof. induction l as [|x l IH]; [reflexivity | exact IH]. Qed.

Lemma bindB_assoc {A B C : Type} (m : MB A) (k1 : A -> MB B) (k2 : B -> MB C)
      (b : board) :
  bindB (bindB m k1) k2 b = bindB m (fun a => bindB (k1 a) k2) b.
Proof. unfold bindB. destruct (m b) as [[a| |] b1]; reflexivity. Qed.

Lemma lift_rd_IF (p : I2C_TypeDef) (b : board) (v : Z) (rest : list Z) :
  IF_reads (regs p (engine b)) = v :: rest ->
  lift (rd_IF p) b =
  (Ok v,
   with_engine
     (with_regs p (mkRegs (IEN (regs p (engine b))) (STATE (regs p (engine b)))
                          (RXDATA (regs p (engine b))) rest) (engine b)) b).
Proof.
  intros H. unfold lift, rd_IF. rewrite H. cbn [fst snd].
  rewrite trace_with_regs, skipn_all, app_nil_r. reflexivity.
Qed.

Lemma lift_wr_IFC (p : I2C_TypeDef) (v : Z) (b : board) :
  lift (wr_IFC p v) b =
  (Ok tt,
   with_log (setup_log b ++ [Engine (WrIFC p v)])
            (with_engine (with_trace (trace (engine b) ++ [WrIFC p v]) (engine b)) b)).
Proof.
  unfold lift, wr_IFC, emit. cbn [fst snd trace with_trace].
  rewrite skipn_length_app. reflexivity.
Qed.

Lemma with_regs_twice (p : I2C_TypeDef) (r r' : I2C_regs) (s : system) :
  with_regs p r (with_regs p r' s) = with_regs p r s.
Proof. destruct p, s; reflexivity. Qed.

Lemma with_regs_with_trace (p : I2C_TypeDef) (r : I2C_regs) (t : list effect)
      (s : system) :
  with_regs p r (with_trace t s) = with_trace t (with_regs p r s).
Proof. destruct p, s; reflexivity. Qed.

Lemma i2c_open_run
      (init : I2C_TypeDef -> I2C_Init_TypeDef -> MB unit)
      (p : I2C_TypeDef) (app : I2C_OPEN_STRUCT) (b : board)
      (v1 v2 : Z) (rest : list Z) :
  IF_reads (regs p (engine b)) = v1 :: v2 :: rest ->
  i2c_open init p app b =
  if Bool.eqb (Z.land v1 I2C_IFS_START =? 0) (Z.land v2 I2C_IFS_START =? 0)
  then (AssertFailed, start_flag_toggled p v1 rest b)
  else i2c_open_configure init p app (start_flag_toggled p v1 rest b).
Proof.
  intros Hreads.
  assert (Hhead :
            i2c_open init p app b =
            bindB (lift (rd_IF p))
              (fun flags =>
                 bindB
                   (if Z.land flags I2C_IFS_START =? 0
                    then bindB (logB (WrIFS p I2C_IFS_START))
                           (fun _ => bindB (lift (rd_IF p))
                              (fun after => assertB (negb (Z.land after I2C_IFS_START =? 0))))
                    else bindB (lift (wr_IFC p I2C_IFC_START))
                           (fun _ => bindB (lift (rd_IF p))
                              (fun after => assertB (Z.land after I2C_IFS_START =? 0))))
                   (fun _ => i2c_open_configure init p app))
              (with_log (setup_log b ++ [ClockEnable p]) b)).
  { destruct p; reflexivity. }
  rewrite Hhead. clear Hhead.
  destruct b as [e rl rp lg].
  unfold bindB at 1. rewrite (lift_rd_IF p _ v1 (v2 :: rest)) by exact Hreads.
  unfold start_flag_toggled, with_log, with_engine.
  cbn [engine ROUTELOC0 ROUTEPEN setup_log] in *.
  destruct (Z.land v1 I2C_IFS_START =? 0).
  - rewrite bindB_assoc. unfold bindB at 1, logB at 1.
    rewrite bindB_assoc. unfold bindB at 1.
    cbn [engine ROUTELOC0 ROUTEPEN setup_log].
    rewrite (lift_rd_IF p _ v2 rest)
      by (cbn [engine]; rewrite regs_with_regs_same; reflexivity).
    unfold bindB at 1, assertB, with_engine.
    cbn [engine ROUTELOC0 ROUTEPEN setup_log].
    rewrite regs_with_regs_same, with_regs_twice, <- app_assoc.
    cbn [IEN STATE RXDATA IF_reads List.app].
    destruct (Z.land v2 I2C_IFS_START =? 0); reflexivity.
  - rewrite bindB_assoc. unfold bindB at 1. rewrite lift_wr_IFC.
    unfold with_log, with_engine.
    cbn [engine ROUTELOC0 ROUTEPEN setup_log].
    rewrite bindB_assoc. unfold bindB at 1.
    rewrite (lift_rd_IF p _ v2 rest)
      by (cbn [engine]; rewrite regs_with_trace, regs_with_regs_same; reflexivity).
    unfold bindB at 1, assertB, with_engine.
    cbn [engine ROUTELOC0 ROUTEPEN setup_log].
    rewrite regs_with_trace, regs_with_regs_same, trace_with_regs,
      with_regs_with_trace, with_regs_twice, <- app_assoc.
    cbn [IEN STATE RXDATA IF_reads List.app].
    destruct (Z.land v2 I2C_IFS_START =? 0); reflexivity.
Qed.

Lemma or_route_same (p : I2C_TypeDef) (v : Z) (f : I2C_TypeDef -> Z) :
  or_route p v f p = Z.lor (f p) v.
Proof. unfold or_route. destruct p; reflexivity. Qed.

Lemma or_route_other (p q : I2C_TypeDef) (v : Z) (f : I2C_TypeDef -> Z) :
  q <> p -> or_route p v f q = f q.
Proof. unfold or_route. destruct p, q; intros H; (reflexivity || congruence). Qed.

Lemma i2c_open_configure_run
      (init : I2C_TypeDef -> I2C_Init_TypeDef -> MB unit)
      (p : I2C_TypeDef) (app : I2C_OPEN_STRUCT) (b b1 : board) :
  init p (mkInit (enable app) (master app) (freq app) (refFreq app) (clhr app))
       b = (Ok tt, b1) ->
  i2c_open_configure init p app b =
  lift (i2c_bus_reset p) (routed p app b1 (setup_log b)).
Proof.
  intros Hinit. unfold i2c_open_configure.
  unfold bindB at 1, call_init. rewrite Hinit. cbn [fst snd].
  unfold bindB, or_ROUTELOC0, or_ROUTEPEN, routed, or_route.
  cbn [engine ROUTELOC0 ROUTEPEN setup_log].
  rewrite <- !app_assoc. reflexivity.
Qed.

Lemma lift_i2c_bus_reset_returns (p : I2C_TypeDef) (b : board) (w : Z)
      (polls rest' : list Z) :
  IF_reads (regs p (engine b)) = w :: polls ->
  poll_mstop polls = Some rest' ->
  lift (i2c_bus_reset p) b =
  (Ok tt,
   mkBoard
     (with_trace (trace (engine b) ++
                  bus_reset_effects p (IEN (regs p (engine b))))
        (with_regs p
           (mkRegs (IEN (regs p (engine b))) (STATE (regs p (engine b)))
                   (RXDATA (regs p (engine b))) rest') (engine b)))
     (ROUTELOC0 b) (ROUTEPEN b)
     (setup_log b ++
      map Engine (bus_reset_effects p (IEN (regs p (engine b)))))).
Proof.
  intros Hreads Hpoll. unfold lift. rewrite i2c_bus_reset_run. cbv zeta.
  rewrite Hreads, Hpoll. cbn [fst snd].
  unfold bus_reset_effects.
  replace (((trace (engine b) ++
            [WrCMD p I2C_CMD_ABORT; WrIEN p _I2C_IEN_RESETVALUE;
             WrIFC p _I2C_IFC_MASK]) ++
           [WrCMD p I2C_CMD_CLEARTX; OrIFC p I2C_IFC_MSTOP;
            WrCMD p (Z.lor I2C_CMD_START I2C_CMD_STOP)]) ++
          [WrIFC p _I2C_IFC_MASK; WrCMD p I2C_CMD_ABORT;
           WrIEN p (IEN (regs p (engine b)))])
    with (trace (engine b) ++
          [WrCMD p I2C_CMD_ABORT; WrIEN p _I2C_IEN_RESETVALUE;
           WrIFC p _I2C_IFC_MASK;
           WrCMD p I2C_CMD_CLEARTX; OrIFC p I2C_IFC_MSTOP;
           WrCMD p (Z.lor I2C_CMD_START I2C_CMD_STOP);
           WrIFC p _I2C_IFC_MASK; WrCMD p I2C_CMD_ABORT;
           WrIEN p (IEN (regs p (engine b)))])
    by (rewrite <- !app_assoc; reflexivity).
  cbn [trace with_trace]. rewrite skipn_length_app. reflexivity.
Qed.

Lemma routes_kept_refl (p : I2C_TypeDef) (b : board) : routes_kept p b b.
Proof. repeat split; auto. Qed.

Lemma routes_kept_same_routes (p : I2C_TypeDef) (b b' : board) :
  ROUTELOC0 b' = ROUTELOC0 b -> ROUTEPEN b' = ROUTEPEN b -> routes_kept p b b'.
Proof. intros H1 H2. unfold routes_kept. rewrite H1, H2. repeat split; auto. Qed.

Lemma routes_kept_bindB {A B : Type} (p : I2C_TypeDef) (m : MB A)
      (k : A -> MB B) :
  (forall b, routes_kept p b (snd (m b))) ->
  (forall a b, routes_kept p b (snd (k a b))) ->
  forall b, routes_kept p b (snd (bindB m k b)).
Proof.
  intros Hm Hk b. unfold bindB. specialize (Hm b).
  destruct (m b) as [[a| |] b1]; cbn [snd] in *; try exact Hm.
  specialize (Hk a b1).
  destruct Hm as (Ho & Hl & Hp), Hk as (Ho' & Hl' & Hp').
  repeat split.
  - destruct (Ho q H), (Ho' q H). congruence.
  - destruct (Ho q H), (Ho' q H). congruence.
  - auto.
  - auto.
Qed.

Lemma routes_kept_lift {A : Type} (p : I2C_TypeDef) (m : M A) (b : board) :
  routes_kept p b (snd (lift m b)).
Proof. apply routes_kept_same_routes; reflexivity. Qed.

Lemma routes_kept_or_ROUTELOC0 (p : I2C_TypeDef) (v : Z) (b : board) :
  routes_kept p b (snd (or_ROUTELOC0 p v b)).
Proof.
  unfold or_ROUTELOC0, routes_kept. cbn [snd ROUTELOC0 ROUTEPEN].
  repeat split.
  - destruct p, q; (reflexivity || congruence).
  - intros n Hn. replace (I2C_eqb p p) with true by (destruct p; reflexivity).
    rewrite Z.lor_spec, Hn. reflexivity.
  - auto.
Qed.

Lemma routes_kept_or_ROUTEPEN (p : I2C_TypeDef) (v : Z) (b : board) :
  routes_kept p b (snd (or_ROUTEPEN p v b)).
Proof.
  unfold or_ROUTEPEN, routes_kept. cbn [snd ROUTELOC0 ROUTEPEN].
  repeat split.
  - destruct p, q; (reflexivity || congruence).
  - auto.
  - intros n Hn. replace (I2C_eqb p p) with true by (destruct p; reflexivity).
    rewrite Z.lor_spec, Hn. reflexivity.
Qed.

Lemma routes_kept_call_init
      (init : I2C_TypeDef -> I2C_Init_TypeDef -> MB unit)
      (p : I2C_TypeDef) (cfg : I2C_Init_TypeDef) (b : board) :
  routes_kept p b (snd (init p cfg b)) ->
  routes_kept p b (snd (call_init init p cfg b)).
Proof. intros H. exact H. Qed.

Lemma i2c_open_routes_kept
      (init : I2C_TypeDef -> I2C_Init_TypeDef -> MB unit)
      (p : I2C_TypeDef) (app : I2C_OPEN_STRUCT) (b : board) :
  (forall cfg b0, routes_kept p b0 (snd (init p cfg b0))) ->
  routes_kept p b (snd (i2c_open init p app b)).
Proof.
  intros Hinit. revert b. unfold i2c_open.
  repeat (apply routes_kept_bindB; [| intros ?]);
    intros b;
    repeat match goal with
           | |- context [if ?c then _ else _] => destruct c
           end;
    revert b;
    repeat (apply routes_kept_bindB; [| intros ?]);
    intros b;
    try apply routes_kept_lift;
    try (apply routes_kept_call_init; apply Hinit);
    try apply routes_kept_or_ROUTELOC0;
    try apply routes_kept_or_ROUTEPEN;
    try (apply routes_kept_same_routes; reflexivity);
    try (unfold assertB;
         match goal with
         | |- context [if ?c then _ else _] => destruct c
         end; apply routes_kept_refl).
Qed.

(** X19. [i2c_open] tests that the START flag of IF can be toggled
    before it configures anything: when the flag reads the same after
    the write to IFS (flag clear) or IFC (flag set) as before, the call
    fails its assertion; [I2C_Init] has not been called, the routing
    registers are as they were and the bus has not been reset: the only
    effects are the clock enable and the write that should have toggled
    the flag. *)
Theorem i2c_open_stops_when_start_flag_does_not_toggle
        (init : I2C_TypeDef -> I2C_Init_TypeDef -> MB unit)
        (p : I2C_TypeDef) (app : I2C_OPEN_STRUCT) (b : board)
        (v1 v2 : Z) (rest : list Z) :
  IF_reads (regs p (engine b)) = v1 :: v2 :: rest ->
  (Z.land v1 I2C_IFS_START =? 0) = (Z.land v2 I2C_IFS_START =? 0) ->
  let out := i2c_open init p app b in
  fst out = AssertFailed /\
  ROUTELOC0 (snd out) = ROUTELOC0 b /\
  ROUTEPEN (snd out) = ROUTEPEN b /\
  setup_log (snd out) =
    setup_log b ++
    [ClockEnable p;
     if Z.land v1 I2C_IFS_START =? 0
     then WrIFS p I2C_IFS_START
     else Engine (WrIFC p I2C_IFC_START)].
Proof.
  intros Hreads Hsame. cbv zeta.
  rewrite (i2c_open_run init p app b v1 v2 rest Hreads).
  replace (eqb (Z.land v1 I2C_IFS_START =? 0) (Z.land v2 I2C_IFS_START =? 0))
    with true by (rewrite Hsame; symmetry; apply eqb_reflx).
  cbn [fst snd]. unfold start_flag_toggled, with_log, with_engine.
  destruct (Z.land v1 I2C_IFS_START =? 0);
    cbn [ROUTELOC0 ROUTEPEN setup_log]; repeat split.
Qed.

Lemma i2c_open_stops_when_start_flag_does_not_toggle_witness :
  fst (i2c_open init_keeps_board I2C0 si7021_open (reset_board [0x10; 0x10]))
  = AssertFailed.
Proof.
  apply (i2c_open_stops_when_start_flag_does_not_toggle
           init_keeps_board I2C0 si7021_open (reset_board [0x10; 0x10])
           0x10 0x10 []); reflexivity.
Defined.

(** X20. When the START flag toggles, [I2C_Init] returns and the
    hardware shows the stop-detected flag during the bus reset,
    [i2c_open] returns.  [I2C_Init] was called once, after the flag
    test, with the five settings copied from the caller's structure, and
    it found the routing registers as they were before the call of
    [i2c_open].  The routing registers of the peripheral are the content
    that [I2C_Init] left, or'ed with both values of the caller (nothing
    is cleared first); the ones of the other peripheral are as
    [I2C_Init] left them; IEN is as [I2C_Init] left it; the bus reset is
    the last thing done. *)
Theorem i2c_open_postcondition
        (init : I2C_TypeDef -> I2C_Init_TypeDef -> MB unit)
        (p : I2C_TypeDef) (app : I2C_OPEN_STRUCT) (b b1 : board)
        (v1 v2 w : Z) (rest polls rest' : list Z) :
  IF_reads (regs p (engine b)) = v1 :: v2 :: rest ->
  (Z.land v1 I2C_IFS_START =? 0) <> (Z.land v2 I2C_IFS_START =? 0) ->
  init p (mkInit (enable app) (master app) (freq app) (refFreq app) (clhr app))
       (start_flag_toggled p v1 rest b) = (Ok tt, b1) ->
  IF_reads (regs p (engine b1)) = w :: polls ->
  poll_mstop polls = Some rest' ->
  let out := i2c_open init p app b in
  fst out = Ok tt /\
  ROUTELOC0 (start_flag_toggled p v1 rest b) = ROUTELOC0 b /\
  ROUTEPEN (start_flag_toggled p v1 rest b) = ROUTEPEN b /\
  ROUTELOC0 (snd out) p =
    Z.lor (Z.lor (ROUTELOC0 b1 p) (sda_loc app)) (scl_loc app) /\
  ROUTEPEN (snd out) p =
    Z.lor (Z.lor (ROUTEPEN b1 p) (sda_pen app)) (scl_pen app) /\
  (forall q, q <> p ->
             ROUTELOC0 (snd out) q = ROUTELOC0 b1 q /\
             ROUTEPEN (snd out) q = ROUTEPEN b1 q) /\
  IEN (regs p (engine (snd out))) = IEN (regs p (engine b1)) /\
  setup_log (snd out) =
    setup_log b ++
    [ClockEnable p;
     if Z.land v1 I2C_IFS_START =? 0
     then WrIFS p I2C_IFS_START
     else Engine (WrIFC p I2C_IFC_START);
     InitCall p (mkInit (enable app) (master app) (freq app) (refFreq app)
                        (clhr app));
     OrROUTELOC0 p (sda_loc app); OrROUTELOC0 p (scl_loc app);
     OrROUTEPEN p (sda_pen app); OrROUTEPEN p (scl_pen app)] ++
    map Engine (bus_reset_effects p (IEN (regs p (engine b1)))).
Proof.
  intros Hreads Hdiff Hinit Hreset Hpoll. cbv zeta.
  rewrite (i2c_open_run init p app b v1 v2 rest Hreads).
  replace (eqb (Z.land v1 I2C_IFS_START =? 0) (Z.land v2 I2C_IFS_START =? 0))
    with false
    by (destruct (Z.land v1 I2C_IFS_START =? 0),
                 (Z.land v2 I2C_IFS_START =? 0); (reflexivity || congruence)).
  rewrite (i2c_open_configure_run init p app _ b1 Hinit).
  rewrite (lift_i2c_bus_reset_returns p _ w polls rest')
    by (unfold routed; cbn [engine]; assumption).
  unfold routed, start_flag_toggled, with_log, with_engine.
  cbn [fst snd engine ROUTELOC0 ROUTEPEN setup_log].
  rewrite !or_route_same, regs_with_trace, regs_with_regs_same.
  cbn [IEN].
  repeat split.
  - destruct (Z.land v1 I2C_IFS_START =? 0); reflexivity.
  - destruct (Z.land v1 I2C_IFS_START =? 0); reflexivity.
  - rewrite !or_route_other by assumption. reflexivity.
  - rewrite !or_route_other by assumption. reflexivity.
  - destruct (Z.land v1 I2C_IFS_START =? 0);
      cbn [setup_log]; rewrite <- !app_assoc; reflexivity.
Qed.

Lemma i2c_open_postcondition_witness :
  let out := i2c_open init_keeps_board I2C0 si7021_open
                      (reset_board [0x10; 0x11; 0x10; 0x110]) in
  fst out = Ok tt /\
  ROUTELOC0 (snd out) I2C0 = 0xF0F /\
  ROUTEPEN (snd out) I2C0 = 0x3.
Proof.
  pose proof (i2c_open_postcondition
                init_keeps_board I2C0 si7021_open
                (reset_board [0x10; 0x11; 0x10; 0x110])
                (start_flag_toggled I2C0 0x10 [0x10; 0x110]
                   (reset_board [0x10; 0x11; 0x10; 0x110]))
                0x10 0x11 0x10 [0x10; 0x110] [0x110] [])
    as H.
  cbv zeta in H.
  destruct H as (Hok & _ & _ & Hloc & Hpen & _).
  - reflexivity.
  - vm_compute. discriminate.
  - reflexivity.
  - reflexivity.
  - reflexivity.
  - cbv zeta. rewrite Hok, Hloc, Hpen. repeat split.
Defined.

(** X21. The code of [i2c_open] never clears a routing bit.  Provided
    [I2C_Init] clears no bit of ROUTELOC0 and ROUTEPEN of the peripheral
    and leaves the routing registers of the other peripheral alone, then
    whatever the hardware answers, and whether the call returns, fails
    or stalls, every bit set in ROUTELOC0 or ROUTEPEN of the peripheral
    before the call is set after it, and the routing registers of the
    other peripheral are unchanged.  Opening a peripheral a second time
    with other pin locations leaves the bits of the first locations
    set. *)
Theorem i2c_open_never_clears_a_routing_bit
        (init : I2C_TypeDef -> I2C_Init_TypeDef -> MB unit)
        (p : I2C_TypeDef) (app : I2C_OPEN_STRUCT) (b : board) :
  (forall cfg b0, routes_kept p b0 (snd (init p cfg b0))) ->
  let b' := snd (i2c_open init p app b) in
  (forall q, q <> p ->
             ROUTELOC0 b' q = ROUTELOC0 b q /\ ROUTEPEN b' q = ROUTEPEN b q) /\
  (forall n, Z.testbit (ROUTELOC0 b p) n = true ->
             Z.testbit (ROUTELOC0 b' p) n = true) /\
  (forall n, Z.testbit (ROUTEPEN b p) n = true ->
             Z.testbit (ROUTEPEN b' p) n = true).
Proof. intros Hinit. cbv zeta. exact (i2c_open_routes_kept init p app b Hinit). Qed.

Lemma i2c_open_never_clears_a_routing_bit_witness :
  Z.testbit
    (ROUTELOC0
       (snd (i2c_open init_keeps_board I2C0 si7021_open
               (mkBoard (engine (reset_board [0x10; 0x11; 0x10; 0x110]))
                        (fun _ => 0x50) (fun _ => 0x1) [])))
       I2C0) 6 = true.
Proof.
  refine (proj1 (proj2 (i2c_open_never_clears_a_routing_bit
                          init_keeps_board I2C0 si7021_open
                          (mkBoard (engine (reset_board [0x10; 0x11; 0x10; 0x110]))
                                   (fun _ => 0x50) (fun _ => 0x1) [])
                          _)) 6 _).
  - intros cfg b0. repeat split; intros; assumption.
  - reflexivity.
Defined.

End I2C.
